(** * deeplite.profiler.formatter: a shallow embedding and its properties

    The development follows [src/deeplite/profiler/formatter.py]:
    the [NotComputedValue] placeholder, [parse_metric], the two table
    renderers [make_one_model_summary_str] / [make_two_models_summary_str]
    and the display policy [default_display_filter_function].

    Python values are modelled as the code uses them:
    - [str] as [string]; one [ascii] stands for one code point below 256;
    - exceptions as the [Raise] case of an error monad [result];
    - [int] as [Z], [float] as an IEEE-754 binary64 number ([spec_float]
      with precision 53 and maximal exponent 1024);
    - the bounds of CPython 3.11 on a 64-bit build where the code can
      reach them: [int] of more than 4300 digits and a repetition count
      beyond [sys.maxsize] raise; memory is not modelled;
    - [dict] / [OrderedDict] as a list of key-value pairs in insertion
      order, all keys distinct;
    - objects that are mutated ([new_status_dict]) live in a store. *)

From Stdlib Require Import ZArith String Ascii List Bool Lia.
From Stdlib Require Import DecimalString DecimalN DecimalPos.
From Stdlib Require Import Floats.SpecFloat.
From stdpp Require Import base option list gmap strings.

Local Open Scope string_scope.
Local Open Scope Z_scope.

(** String concatenation unfolds on a literal left operand *)
#[local] Arguments String.append !s1 s2 : simpl nomatch.

(** ** Exceptions *)

Inductive exn : Type :=
| TypeError | ValueError | ZeroDivisionError | OverflowError
| AttributeError | KeyError.

Inductive result (A : Type) : Type :=
| Ok (a : A)
| Raise (e : exn).
Arguments Ok {A} a.
Arguments Raise {A} e.

#[global] Instance result_ret : MRet result := fun A a => Ok a.
#[global] Instance result_bind : MBind result := fun A B k r =>
  match r with
  | Ok a => k a
  | Raise e => Raise e
  end.

Definition returns {A} (r : result A) : Prop := exists a, r = Ok a.

(** ** Python strings

    A [str] is a [string] here: a sequence of code points below 256.
    Text with a code point above U+00FF, among them digits that
    [isdigit] accepts, cannot be written, and no statement ranges over
    it. *)

Module Str.

Definition len (s : string) : Z := Z.of_nat (String.length s).

(** [c * n] for a one-character string; a negative count gives [''] *)
Definition repeat (c : ascii) (n : Z) : string :=
  string_of_list_ascii (List.repeat c (Z.to_nat n)).

(** [c in s] for a one-character [c] *)
Fixpoint contains (c : ascii) (s : string) : bool :=
  match s with
  | EmptyString => false
  | String a s' => if Ascii.eqb a c then true else contains c s'
  end.

(** [s.split(c)] for a one-character separator: never the empty list *)
Fixpoint split (c : ascii) (s : string) : list string :=
  match s with
  | EmptyString => [EmptyString]
  | String a s' =>
      if Ascii.eqb a c then EmptyString :: split c s'
      else match split c s' with
           | [] => [String a EmptyString]
           | w :: ws => String a w :: ws
           end
  end.

(** [l[0]] and [l[-1]] on the result of a split *)
Definition first (l : list string) : string := List.hd EmptyString l.
Definition last (l : list string) : string := List.last l EmptyString.

Definition is_decimal_char (a : ascii) : bool :=
  let n := N_of_ascii a in ((48 <=? n) && (n <=? 57))%N.

(** [str.isdigit] is true on the decimal digits and, below code point
    256, on the superscripts U+00B2, U+00B3 and U+00B9 *)
Definition is_digit_char (a : ascii) : bool :=
  let n := N_of_ascii a in
  (is_decimal_char a || (n =? 178) || (n =? 179) || (n =? 185))%N.

Fixpoint all_chars (p : ascii -> bool) (s : string) : bool :=
  match s with
  | EmptyString => true
  | String a s' => p a && all_chars p s'
  end.

(** [s.isdigit()]: at least one character, all of them digits *)
Definition isdigit (s : string) : bool :=
  match s with
  | EmptyString => false
  | _ => all_chars is_digit_char s
  end.

(** [sys.maxsize] of a 64-bit build, the largest index and length, and
    the largest number of digits that [int] converts (CPython 3.11, its
    default [sys.get_int_max_str_digits()]) *)
Definition maxsize : Z := 2 ^ 63 - 1.
Definition max_str_digits : Z := 4300.

(** [int(s)] on a string for which [isdigit] holds: a decimal numeral
    of at most [max_str_digits] digits gives its value; a longer one
    raises [ValueError], and so do the superscript digits, which are no
    decimal digits *)
Definition int (s : string) : result Z :=
  match s with
  | EmptyString => Raise ValueError
  | _ =>
      if max_str_digits <? len s then Raise ValueError
      else match NilEmpty.uint_of_string s with
           | Some d => Ok (Z.of_N (N.of_uint d))
           | None => Raise ValueError
           end
  end.

(** [c * n] where [n] is computed at run time: a count beyond
    [sys.maxsize] raises [OverflowError]. A count within the index range
    is taken to fit in memory: [MemoryError] is not modelled. *)
Definition mul (c : ascii) (n : Z) : result string :=
  if maxsize <? n then Raise OverflowError else Ok (repeat c n).

(** [str(n)] for a non-negative integer, as substituted for a nested
    replacement field such as [{col1_length}] *)
Definition of_int (n : Z) : string :=
  NilEmpty.string_of_uint (N.to_uint (Z.to_N n)).

(** ['{:>w}'.format(s)] *)
Definition rjust (w : Z) (s : string) : string :=
  repeat " " (w - len s) ++ s.

(** ['{:^w}'.format(s)]: the left margin gets the smaller half *)
Definition center (w : Z) (s : string) : string :=
  let pad := Z.max (w - len s) 0 in
  let left := pad / 2 in
  repeat " " left ++ s ++ repeat " " (pad - left).

End Str.

(** ** Python numbers *)

Module Num.

(** A [float] is a binary64 number *)
Definition float : Type := spec_float.
Definition prec : Z := 53.
Definition emax : Z := 1024.

Inductive Number : Type :=
| PyInt (z : Z)
| PyFloat (f : float).

Definition is_inf (f : float) : bool :=
  match f with S754_infinity _ => true | _ => false end.

Definition is_zero (f : float) : bool :=
  match f with S754_zero _ => true | _ => false end.

(** [float(z)]: rounds to nearest, ties to even; an integer beyond the
    range of binary64 raises [OverflowError] *)
Definition float_of_int (z : Z) : result float :=
  let f := binary_normalize prec emax z 0 false in
  if is_inf f then Raise OverflowError else Ok f.

Definition to_float (n : Number) : result float :=
  match n with
  | PyInt z => float_of_int z
  | PyFloat f => Ok f
  end.

(** An integer as an exact, unnormalised binary number *)
Definition exact (z : Z) : float :=
  match z with
  | Z0 => S754_zero false
  | Zpos m => S754_finite false m 0
  | Zneg m => S754_finite true m 0
  end.

(** [a / b]. Two integers give the correctly rounded quotient; in the
    mixed cases the integer is converted first, then the divisor is
    tested for zero *)
Definition truediv (a b : Number) : result Number :=
  match a, b with
  | PyInt x, PyInt y =>
      if y =? 0 then Raise ZeroDivisionError
      else let q := SFdiv prec emax (exact x) (exact y) in
           if is_inf q then Raise OverflowError else Ok (PyFloat q)
  | _, _ =>
      x ← to_float a;
      y ← to_float b;
      if is_zero y then Raise ZeroDivisionError
      else Ok (PyFloat (SFdiv prec emax x y))
  end.

(** [a - b] *)
Definition sub (a b : Number) : result Number :=
  match a, b with
  | PyInt x, PyInt y => Ok (PyInt (x - y))
  | _, _ =>
      x ← to_float a;
      y ← to_float b;
      Ok (PyFloat (SFsub prec emax x y))
  end.

(** *** Fixed-point formatting, presentation type [f] *)

(** [n / d] rounded to the nearest integer, ties to even ([0 <= n], [0 < d]) *)
Definition div_half_even (n d : Z) : Z :=
  let q := n / d in
  let r := n mod d in
  match 2 * r ?= d with
  | Lt => q
  | Gt => q + 1
  | Eq => if Z.even q then q else q + 1
  end.

(** [m * 2^e * 10^p], rounded to an integer *)
Definition scaled (p : nat) (m : positive) (e : Z) : Z :=
  let n := Zpos m * 10 ^ Z.of_nat p in
  if 0 <=? e then n * 2 ^ e else div_half_even n (2 ^ (- e)).

(** The decimal numeral of [n / 10^p] with exactly [p] decimals *)
Definition fixed (p : nat) (n : Z) : string :=
  let ds := Str.of_int n in
  let ds := Str.repeat "0" (Z.of_nat p + 1 - Str.len ds) ++ ds in
  let k := (String.length ds - p)%nat in
  let int_part := String.substring 0 k ds in
  match p with
  | O => int_part
  | _ => int_part ++ "." ++ String.substring k p ds
  end.

Definition sign (s : bool) : string := if s then "-" else "".

(** ['{:.pf}'.format(x)] for a float [x] *)
Definition format_float (p : nat) (f : float) : string :=
  match f with
  | S754_nan => "nan"
  | S754_infinity s => sign s ++ "inf"
  | S754_zero s => sign s ++ fixed p 0
  | S754_finite s m e => sign s ++ fixed p (scaled p m e)
  end.

(** ['{:>w.pf}'.format(n)]: an [int] is converted to [float] first.
    [w = 0] stands for an omitted width *)
Definition format_f (w : Z) (p : nat) (n : Number) : result string :=
  f ← to_float n;
  Ok (Str.rjust w (format_float p f)).

End Num.


(** ** Objects handed to the metric arithmetic

    A metric value as [parse_metric] hands it on: a number, or an
    instance of the class [NotComputedValue] of formatter.py. The class
    defines [__format__], [__repr__] and [__str__] and no arithmetic. *)

Inductive Value : Type :=
| Computed (n : Num.Number)
| NotComputedValue.

(** [b / a] and [b - a] on such objects: an operand without the operator
    raises [TypeError] *)
Definition Value_truediv (b a : Value) : result Num.Number :=
  match b, a with
  | Computed y, Computed x => Num.truediv y x
  | _, _ => Raise TypeError
  end.

Definition Value_sub (b a : Value) : result Num.Number :=
  match b, a with
  | Computed y, Computed x => Num.sub y x
  | _, _ => Raise TypeError
  end.

(** ** deeplite.profiler.metrics

    formatter.py imports [Comparative], [compare_status_values] and
    [Metric] from this module, which is not among the sources. *)

Module Metrics.

(** Modelled from the spec: the enumeration [Comparative] of the
    missing metrics.py, with the three variants the spec names. *)
Inductive Comparative : Type := RATIO | DIFF | NONE.

#[global] Instance Comparative_eq_dec : EqDecision Comparative.
Proof. solve_decision. Defined.

(** What [get_comparative()] may return besides [None]: a member of
    the enumeration or a raw string *)
Inductive Tag : Type :=
| Member (c : Comparative)
| Raw (s : string).

(** Modelled from the spec: the read interface of the missing class
    [Metric]: [friendly_name()], the attribute [value] (read by
    [get_value()] when it is not [None]), [get_units()],
    [get_comparative()] and [description()]. *)
Record Metric : Type := {
  friendly_name : string;
  value : option Num.Number;
  get_units : option string;
  get_comparative : option Tag;
  description : string
}.

(** Modelled from the spec: the missing [compare_status_values]
    (contract 4.1): [RATIO] returns [value_b / value_a] and fails by
    division by zero, [DIFF] returns [value_b - value_a], [NONE]
    returns [None] without touching the values. *)
Definition compare_status_values (comparative : Comparative)
    (value_1 value_2 : Value) : result (option Num.Number) :=
  match comparative with
  | RATIO => r ← Value_truediv value_2 value_1; Ok (Some r)
  | DIFF => r ← Value_sub value_2 value_1; Ok (Some r)
  | NONE => Ok None
  end.

End Metrics.

(** ** Entries of a status mapping *)

Inductive PyObj : Type :=
| PyStr (s : string)
| PyMetric (m : Metrics.Metric)
| PyNumber (n : Num.Number)
| PyNone.

Definition isinstance_Metric (o : PyObj) : bool :=
  match o with PyMetric _ => true | _ => false end.

(** [s + o] for a string literal [s]: only a [str] can be concatenated *)
Definition str_add (s : string) (o : PyObj) : result string :=
  match o with
  | PyStr t => Ok (s ++ t)
  | _ => Raise TypeError
  end.

(** ** Dictionaries: key-value pairs in insertion order *)

Module Dict.
Abbreviation t V := (list (string * V)).

Section Dict.
Context {V : Type}.

Definition keys (d : t V) : list string := d.*1.
Definition values (d : t V) : list V := d.*2.
Definition items (d : t V) : list (string * V) := d.

Fixpoint get (k : string) (d : t V) : option V :=
  match d with
  | [] => None
  | (k', v) :: d' => if String.eqb k' k then Some v else get k d'
  end.

(** [k in d] *)
Definition contains (k : string) (d : t V) : bool :=
  match get k d with Some _ => true | None => false end.

(** [d[k]] *)
Definition getitem (k : string) (d : t V) : result V :=
  match get k d with
  | Some v => Ok v
  | None => Raise KeyError
  end.

(** [d[k] = v]: an existing key keeps its position, a new key goes last *)
Fixpoint setitem (k : string) (v : V) (d : t V) : t V :=
  match d with
  | [] => [(k, v)]
  | (k', v') :: d' =>
      if String.eqb k' k then (k', v) :: d' else (k', v') :: setitem k v d'
  end.

(** Well-formed dictionaries have no repeated key *)
Definition wf (d : t V) : Prop := NoDup (keys d).
End Dict.
End Dict.

(** A [for] loop whose body may raise *)
Fixpoint for_each {A S : Type} (body : S -> A -> result S)
    (l : list A) (s : S) : result S :=
  match l with
  | [] => Ok s
  | x :: l' => s' ← body s x; for_each body l' s'
  end.

(** ** deeplite.profiler.formatter *)

Module Formatter.
Import Metrics.

(** The line feed written ["\n"] in the source *)
Definition nl : string := String (ascii_of_nat 10) EmptyString.

(** [NotComputedValue.__format__] *)
Definition NotComputedValue_format (format_spec : string) : result string :=
  let s := "<NotComputed>" in
  if Str.contains ">" format_spec then
    let format_spec := Str.last (Str.split ">" format_spec) in
    let format_spec :=
      if Str.contains "." format_spec
      then Str.first (Str.split "." format_spec)
      else format_spec in
    if Str.isdigit format_spec then
      w ← Str.int format_spec;
      pad ← Str.mul " " (Z.max (w - Str.len s) 0);
      Ok (pad ++ s)
    else Ok s
  else Ok s.

(** The replacement field [{:>{w}.{p}f}] applied to a metric value: the
    nested field is replaced by [str(w)], then the value's own
    [__format__] receives the format specification *)
Definition format_spec_f (w : Z) (p : nat) : string :=
  ">" ++ Str.of_int w ++ "." ++ Str.of_int (Z.of_nat p) ++ "f".

Definition format_value (w : Z) (p : nat) (v : Value) : result string :=
  match v with
  | Computed n => Num.format_f w p n
  | NotComputedValue => NotComputedValue_format (format_spec_f w p)
  end.

(** [parse_metric]: any object without [friendly_name] raises
    [AttributeError] at the first line *)
Definition parse_metric (metric : PyObj)
  : result (string * Value * string * option Tag * string) :=
  match metric with
  | PyMetric m =>
      let text := friendly_name m in
      let '(value, units, comparative) :=
        match value m with
        | None => (NotComputedValue, "", Some (Member NONE))
        | Some v =>
            let units := get_units m in
            let units := match units with None => "" | Some u => u end in
            (Computed v, units, get_comparative m)
        end in
      let description := description m in
      Ok (text, value, units, comparative, description)
  | _ => Raise AttributeError
  end.

(** *** [make_one_model_summary_str] *)

(** The body of the loop over [status_dict.values()]; the state is
    [(summary_str, description_str)] *)
Definition one_model_row (col1_length col2_length : Z)
    (acc : string * string) (status : PyObj) : result (string * string) :=
  let '(summary_str, description_str) := acc in
  if negb (isinstance_Metric status) then Ok acc
  else
    '(text, value, units, _, desc) ← parse_metric status;
    let print_str := text ++ " (" ++ units ++ ")" in
    cell ← format_value col2_length 4 value;
    let line_new := "|" ++ Str.rjust col1_length print_str ++ " | " ++ cell ++ "|" in
    let summary_str := summary_str ++ line_new ++ nl in
    let description_str := description_str ++ "* " ++ text ++ ": " ++ desc ++ nl in
    Ok (summary_str, description_str).

Definition make_one_model_summary_str (status_dict : Dict.t PyObj)
    (short_print : bool) (description_str summary_str : string)
  : result string :=
  let '(line_length, col1_length, col2_length) := (63, 40, 20) in
  let summary_str :=
    summary_str ++ "+" ++ Str.repeat "-" line_length ++ "+" ++ nl in
  let line_new := "|" ++ Str.center line_length "Deeplite Profiler" ++ "|" in
  let summary_str := summary_str ++ line_new ++ nl in
  let summary_str :=
    summary_str ++ "+" ++ Str.repeat "-" (col1_length + 1) ++ "+"
                ++ Str.repeat "-" (col2_length + 1) ++ "+" ++ nl in
  name ← Dict.getitem "name" status_dict;
  title ← str_add "Param Name (" name;
  let line_new := "|" ++ Str.rjust col1_length (title ++ ")") ++ " | "
                      ++ Str.rjust col2_length "Value" ++ "|" in
  let summary_str := summary_str ++ line_new ++ nl in
  backend ← Dict.getitem "backend" status_dict;
  title ← str_add "Backend: " backend;
  let line_new := "|" ++ Str.rjust col1_length title ++ " | "
                      ++ Str.rjust col2_length "" ++ "|" in
  let summary_str := summary_str ++ line_new ++ nl in
  let summary_str :=
    summary_str ++ "+" ++ Str.repeat "-" (col1_length + 1) ++ "+"
                ++ Str.repeat "-" (col2_length + 1) ++ "+" ++ nl in
  '(summary_str, description_str) ←
    for_each (one_model_row col1_length col2_length)
             (Dict.values status_dict) (summary_str, description_str);
  let summary_str :=
    summary_str ++ "+" ++ Str.repeat "-" (col1_length + 1) ++ "+"
                ++ Str.repeat "-" (col2_length + 1) ++ "+" ++ nl in
  if negb short_print then
    let summary_str := summary_str ++ "Note: " ++ nl in
    let summary_str := summary_str ++ description_str in
    let summary_str :=
      summary_str ++ "+" ++ Str.repeat "-" line_length ++ "+" in
    Ok summary_str
  else Ok summary_str.

(** *** [make_two_models_summary_str] *)

Section TwoModels.

(** Modelled from the spec: the call [Comparative(s)] on a string.
    The values of the members of the missing enumeration are not
    known; [Comparative_of_str s] is the member whose value is [s],
    and the call raises [ValueError] when there is none. *)
Variable Comparative_of_str : string -> option Comparative.

(** The function [compare_status_values] that formatter.py imports
    from the missing metrics.py: the renderer is defined for whatever
    this function returns or raises. [Metrics.compare_status_values]
    is its model from the specification. *)
Variable compare_status_values :
  Comparative -> Value -> Value -> result (option Num.Number).

Definition Comparative_call (s : string) : result Comparative :=
  match Comparative_of_str s with
  | Some c => Ok c
  | None => Raise ValueError
  end.

(** Lines 154 to 177: the text [val] of the Enhancement column *)
Definition enhancement (comp : option Tag) (value_1 value_2 : Value)
    (units_1 units_2 : string) : result string :=
  let comp := match comp with None => Member NONE | Some c => c end in
  if negb (String.eqb units_1 "") && negb (String.eqb units_2 "")
     && negb (String.eqb units_1 units_2)
  then Ok "<Unsupported units>"
  else
    let attempt :=
      comp ← match comp with
             | Raw s => Comparative_call s
             | Member c => Ok c
             end;
      rval ← compare_status_values comp value_1 value_2;
      Ok (comp, rval) in
    match attempt with
    | Raise ZeroDivisionError => Ok "INF"
    | Raise ValueError => Ok "<Error Comparing>"
    | Raise e => Raise e
    | Ok (comp, None) => Ok "---"
    | Ok (comp, Some rval) =>
        let suffix := if decide (comp = DIFF) then "" else "x" in
        s ← Num.format_f 0 2 rval;
        Ok (s ++ suffix)
    end.

(** The body of the loop over [status_dict.items()] *)
Definition two_models_row (status_dict_2 : Dict.t PyObj)
    (col0_length col1_length col2_length col3_length : Z)
    (acc : string * string) (item : string * PyObj)
  : result (string * string) :=
  let '(summary_str, description_str) := acc in
  let '(sk, sv) := item in
  if Dict.contains sk status_dict_2 && isinstance_Metric sv then
    sv2 ← Dict.getitem sk status_dict_2;
    '(text, value_1, units_1, comp, desc) ← parse_metric sv;
    '(_, value_2, units_2, _, _) ← parse_metric sv2;
    val ← enhancement comp value_1 value_2 units_1 units_2;
    let print_str := text ++ " (" ++ units_1 ++ ")" in
    cell_1 ← format_value col2_length 4 value_1;
    cell_2 ← format_value col3_length 4 value_2;
    let line_new :=
      "|" ++ Str.rjust col0_length print_str ++ " | "
          ++ Str.rjust col1_length val ++ "| " ++ cell_1 ++ "| "
          ++ cell_2 ++ "|" in
    let summary_str := summary_str ++ line_new ++ nl in
    let description_str :=
      description_str ++ "* " ++ text ++ ": " ++ desc ++ nl in
    Ok (summary_str, description_str)
  else Ok acc.

Definition make_two_models_summary_str
    (status_dict status_dict_2 : Dict.t PyObj) (short_print : bool)
    (description_str summary_str : string) : result string :=
  let '(line_length, col0_length, col1_length, col2_length, col3_length) :=
    (122, 40, 25, 25, 25) in
  let border :=
    "+" ++ Str.repeat "-" (col0_length + 1) ++ "+"
        ++ Str.repeat "-" (col1_length + 1) ++ "+"
        ++ Str.repeat "-" (col2_length + 1) ++ "+"
        ++ Str.repeat "-" (col2_length + 1) ++ "+" ++ nl in
  let summary_str :=
    summary_str ++ "+" ++ Str.repeat "-" line_length ++ "+" ++ nl in
  let line_new := "|" ++ Str.center line_length "Deeplite Profiler" ++ "|" in
  let summary_str := summary_str ++ line_new ++ nl in
  let summary_str := summary_str ++ border in
  name ← Dict.getitem "name" status_dict;
  title_1 ← str_add "Value (" name;
  name_2 ← Dict.getitem "name" status_dict_2;
  title_2 ← str_add "Value (" name_2;
  let line_new :=
    "|" ++ Str.rjust col0_length "Param Name" ++ " | "
        ++ Str.rjust col1_length "Enhancement" ++ "| "
        ++ Str.rjust col2_length (title_1 ++ ")") ++ "| "
        ++ Str.rjust col3_length (title_2 ++ ")") ++ "|" in
  let summary_str := summary_str ++ line_new ++ nl in
  backend ← Dict.getitem "backend" status_dict;
  title_1 ← str_add "Backend: " backend;
  backend_2 ← Dict.getitem "backend" status_dict_2;
  title_2 ← str_add "Backend: " backend_2;
  let line_new :=
    "|" ++ Str.rjust col0_length "" ++ " | "
        ++ Str.rjust col1_length "" ++ "| "
        ++ Str.rjust col2_length title_1 ++ "| "
        ++ Str.rjust col3_length title_2 ++ "|" in
  let summary_str := summary_str ++ line_new ++ nl in
  let summary_str := summary_str ++ border in
  '(summary_str, description_str) ←
    for_each (two_models_row status_dict_2 col0_length col1_length
                             col2_length col3_length)
             (Dict.items status_dict) (summary_str, description_str);
  let summary_str := summary_str ++ border in
  if negb short_print then
    let summary_str := summary_str ++ "Note: " ++ nl in
    let summary_str := summary_str ++ description_str in
    let summary_str :=
      summary_str ++ "+" ++ Str.repeat "-" line_length ++ "+" in
    Ok summary_str
  else Ok summary_str.

End TwoModels.

(** *** [default_display_filter_function]

    The function builds a new [OrderedDict] by item assignment, so
    dictionaries are objects in a store here and the function is a
    computation on stores. *)

Abbreviation loc := positive.
Abbreviation store := (gmap loc (Dict.t PyObj)).

Definition M (A : Type) : Type := store -> result (A * store).

#[global] Instance M_ret : MRet M := fun A a σ => Ok (a, σ).
#[global] Instance M_bind : MBind M := fun A B k m σ =>
  match m σ with
  | Ok (a, σ') => k a σ'
  | Raise e => Raise e
  end.

(** The dictionary a reference points to. Every reference a program
    holds is allocated; on any other location [deref] reads [{}]. *)
Definition deref (l : loc) (σ : store) : Dict.t PyObj := default [] (σ !! l).

(** [OrderedDict()]: a new object *)
Definition new_OrderedDict : M loc := fun σ =>
  let l := fresh (dom σ) in Ok (l, <[l := []]> σ).

(** [d.keys()], [k in d], [d[k]] and [d[k] = v] on a reference [d] *)
Definition dict_keys (d : loc) : M (list string) := fun σ =>
  Ok (Dict.keys (deref d σ), σ).
Definition dict_contains (k : string) (d : loc) : M bool := fun σ =>
  Ok (Dict.contains k (deref d σ), σ).
Definition dict_getitem (d : loc) (k : string) : M PyObj := fun σ =>
  match Dict.getitem k (deref d σ) with
  | Ok v => Ok (v, σ)
  | Raise e => Raise e
  end.
Definition dict_setitem (d : loc) (k : string) (v : PyObj) : M unit := fun σ =>
  Ok (tt, <[d := Dict.setitem k v (deref d σ)]> σ).

Fixpoint for_ {A} (l : list A) (body : A -> M unit) : M unit :=
  match l with
  | [] => mret tt
  | x :: l' => _ ← body x; for_ l' body
  end.

(** The tuple [order] of line 211 *)
Definition order : list string :=
  ["eval_metric"; "model_size"; "flops"; "total_params";
   "memory_footprint"; "execution_time"].

(** [set(keys) - set(('inference_time',) + order)] *)
Definition leftover_set (keys : list string) : gset string :=
  list_to_set keys ∖ list_to_set ("inference_time" :: order).

(** [tuple(s)] lists the elements of a set once each, in an order that
    Python leaves open: the function is run with any [tuple] that is a
    listing, and two runs need not use the same one. *)
Definition listing (tuple : gset string -> list string) : Prop :=
  forall s, tuple s ≡ₚ elements s.

Definition default_display_filter_function
    (tuple : gset string -> list string) (status_dict : loc) : M loc :=
  keys ← dict_keys status_dict;
  let leftovers := tuple (leftover_set keys) in
  let order := (order ++ leftovers)%list in
  new_status_dict ← new_OrderedDict;
  _ ← for_ order (fun k =>
        present ← dict_contains k status_dict;
        if (present : bool) then
          v ← dict_getitem status_dict k;
          dict_setitem new_status_dict k v
        else mret tt);
  mret new_status_dict.

End Formatter.

(** ** Vocabulary of the statements *)

Module Layout.
Import Formatter.

(** The frame of the one-model table: what precedes the rows, the
    closing border and the optional footnote *)
Definition one_model_border : string :=
  "+" ++ Str.repeat "-" 41 ++ "+" ++ Str.repeat "-" 21 ++ "+" ++ nl.

Definition one_model_head (name backend : string) : string :=
  ("+" ++ Str.repeat "-" 63 ++ "+" ++ nl)
  ++ ("|" ++ Str.center 63 "Deeplite Profiler" ++ "|" ++ nl)
  ++ one_model_border
  ++ ("|" ++ Str.rjust 40 ("Param Name (" ++ name ++ ")") ++ " | "
          ++ Str.rjust 20 "Value" ++ "|" ++ nl)
  ++ ("|" ++ Str.rjust 40 ("Backend: " ++ backend) ++ " | "
          ++ Str.rjust 20 "" ++ "|" ++ nl)
  ++ one_model_border.

Definition footnote (line_length : Z) (short_print : bool)
    (description_str : string) : string :=
  if short_print then ""
  else ("Note: " ++ nl) ++ description_str
       ++ ("+" ++ Str.repeat "-" line_length ++ "+").

(** A row of the one-model table and its footnote line *)
Definition one_model_line (label cell : string) : string :=
  "|" ++ Str.rjust 40 label ++ " | " ++ cell ++ "|" ++ nl.

Definition note_line (text desc : string) : string :=
  "* " ++ text ++ ": " ++ desc ++ nl.

(** A row of the two-model table: label, Enhancement cell, the two
    value cells *)
Definition two_models_line (label val cell_1 cell_2 : string) : string :=
  "|" ++ Str.rjust 40 label ++ " | " ++ Str.rjust 25 val ++ "| "
      ++ cell_1 ++ "| " ++ cell_2 ++ "|" ++ nl.

(** The Metric entries of a status mapping, in its order *)
Definition metrics (d : Dict.t PyObj) : list Metrics.Metric :=
  omap (fun o => match o with PyMetric m => Some m | _ => None end)
       (Dict.values d).

Definition concat (l : list string) : string := foldr String.append "" l.

End Layout.

(** The format specifications of Python's mini-language that
    right-align in a fixed width,
    [[fill]>[sign][z][#][0]width[grouping][.precision][type]],
    such as [>20.4f], [>20], [*>020.4e] or [>+20,.2f]. The width is a
    number with [zeros] zeros written in front of it, the first of which
    is the zero flag. *)
Module FormatSpec.

Inductive Sign : Type := Plus | Minus | Space.
Inductive Grouping : Type := Comma | Underscore.
Inductive Presentation : Type :=
| type_b | type_c | type_d | type_e | type_E | type_f | type_F
| type_g | type_G | type_n | type_o | type_x | type_X | type_percent.

Record t : Type := {
  fill : option ascii;
  sign : option Sign;
  z : bool;
  alternate : bool;
  zeros : nat;
  width : Z;
  grouping : option Grouping;
  precision : option nat;
  type : option Presentation
}.

Definition opt {A : Type} (f : A -> string) (o : option A) : string :=
  match o with Some a => f a | None => "" end.

Definition flag (b : bool) (s : string) : string := if b then s else "".

Definition char (a : ascii) : string := String a "".

Definition sign_text (s : Sign) : string :=
  match s with Plus => "+" | Minus => "-" | Space => " " end.

Definition grouping_text (g : Grouping) : string :=
  match g with Comma => "," | Underscore => "_" end.

Definition type_text (p : Presentation) : string :=
  match p with
  | type_b => "b" | type_c => "c" | type_d => "d" | type_e => "e"
  | type_E => "E" | type_f => "f" | type_F => "F" | type_g => "g"
  | type_G => "G" | type_n => "n" | type_o => "o" | type_x => "x"
  | type_X => "X" | type_percent => "%"
  end.

(** The options between [>] and the width, the digits of the width with
    the zero flag, and what follows the width *)
Definition flags (s : t) : string :=
  opt sign_text (sign s) ++ flag (z s) "z" ++ flag (alternate s) "#".

Definition digits (s : t) : string :=
  Nat.iter (zeros s) (String "0") (Str.of_int (width s)).

Definition precision_text (p : nat) : string :=
  "." ++ Str.of_int (Z.of_nat p).

Definition text (s : t) : string :=
  opt char (fill s) ++ ">" ++ flags s ++ digits s
    ++ opt grouping_text (grouping s)
    ++ opt precision_text (precision s)
    ++ opt type_text (type s).

(** The specifications under which [NotComputedValue.__format__] pads:
    nothing but digits between [>] and the precision, or between [>] and
    the end *)
Definition padded (s : t) : bool :=
  match sign s, z s, alternate s, grouping s with
  | None, false, false, None =>
      match precision s, type s with
      | None, Some _ => false
      | _, _ => true
      end
  | _, _, _, _ => false
  end.

(** [>W.Pf] and [>Wf] *)
Definition fixed_point (w : Z) (precision : option nat) : t :=
  {| fill := None; sign := None; z := false; alternate := false;
     zeros := 0; width := w; grouping := None; precision := precision;
     type := Some type_f |}.

End FormatSpec.

(** The text that [NotComputedValue.__format__] takes for the width:
    what follows the last [>], up to the first [.] after it *)
Definition width_text (format_spec : string) : string :=
  let tail := Str.last (Str.split ">" format_spec) in
  if Str.contains "." tail then Str.first (Str.split "." tail) else tail.

(** The dictionary that the loop of [default_display_filter_function]
    builds from the key sequence [ks], as a function of the input *)
Definition select (ks : list string) (d : Dict.t PyObj) : Dict.t PyObj :=
  foldl (fun acc k =>
           match Dict.get k d with
           | Some v => Dict.setitem k v acc
           | None => acc
           end) [] ks.

(** The comparison mode that a tag stands for: no tag stands for
    [NONE], a raw string for the member it names, if any *)
Definition mode_of (Comparative_of_str : string -> option Metrics.Comparative)
    (comp : option Metrics.Tag) : option Metrics.Comparative :=
  match comp with
  | None => Some Metrics.NONE
  | Some (Metrics.Member c) => Some c
  | Some (Metrics.Raw s) => Comparative_of_str s
  end.

Definition is_zero_number (n : Num.Number) : bool :=
  match n with
  | Num.PyInt z => z =? 0
  | Num.PyFloat f => Num.is_zero f
  end.

Definition is_float (v : Value) : Prop :=
  exists f, v = Computed (Num.PyFloat f).

(** The metrics of the example of the specification: the key
    [model_size], units [MB] on both sides, values 10 and 5 *)
Definition model_size_10 : Metrics.Metric :=
  {| Metrics.friendly_name := "Model Size";
     Metrics.value := Some (Num.PyInt 10);
     Metrics.get_units := Some "MB";
     Metrics.get_comparative := Some (Metrics.Member Metrics.RATIO);
     Metrics.description := "size of the model" |}.

Definition model_size_5 : Metrics.Metric :=
  {| Metrics.friendly_name := "Model Size";
     Metrics.value := Some (Num.PyInt 5);
     Metrics.get_units := Some "MB";
     Metrics.get_comparative := Some (Metrics.Member Metrics.RATIO);
     Metrics.description := "size of the model" |}.

(** What [parse_metric] returns apart from the comparative tag *)
Definition parsed_but_comparative (o : PyObj)
  : result (string * Value * string * string) :=
  '(text, value, units, _, desc) ← Formatter.parse_metric o; Ok (text, value, units, desc).

(** Status mappings on which the renderers raise: a metric computed for
    the first profile only, an integer value beyond the range of a float,
    and an entry of the second profile that is no [Metric] *)
Definition flops (value : option Num.Number) : Metrics.Metric :=
  {| Metrics.friendly_name := "FLOPs";
     Metrics.value := value;
     Metrics.get_units := None;
     Metrics.get_comparative := Some (Metrics.Member Metrics.RATIO);
     Metrics.description := "floating point operations" |}.

Definition status_of (name : string) (entry : PyObj) : Dict.t PyObj :=
  [("name", PyStr name); ("backend", PyStr "cpu"); ("flops", entry)].

(** A metric whose value is a float or is absent *)
Definition float_or_absent (m : Metrics.Metric) : Prop :=
  Metrics.value m = None \/ exists f, Metrics.value m = Some (Num.PyFloat f).

(** The entry of [d] under [k], when there is one *)
Definition entry_of (d : Dict.t PyObj) (k : string) : option (string * PyObj) :=
  v ← Dict.get k d; Some (k, v).

(** Two status mappings that differ at most in the comparative tags
    their Metric entries carry *)
Definition with_comparative (c : option Metrics.Tag) (m : Metrics.Metric)
  : Metrics.Metric :=
  {| Metrics.friendly_name := Metrics.friendly_name m;
     Metrics.value := Metrics.value m;
     Metrics.get_units := Metrics.get_units m;
     Metrics.get_comparative := c;
     Metrics.description := Metrics.description m |}.

Inductive same_but_comparative : PyObj -> PyObj -> Prop :=
| sbc_refl o : same_but_comparative o o
| sbc_metric m c : same_but_comparative (PyMetric m) (PyMetric (with_comparative c m)).

Definition same_but_comparatives (d d' : Dict.t PyObj) : Prop :=
  Forall2 (fun e e' => e.1 = e'.1 /\ same_but_comparative e.2 e'.2) d d'.

(** ** What the tables show of a metric

    The value, the units and the comparative tag as [parse_metric]
    adapts them, the label of the first column, the lines of the
    footnote, and the rows collected in order, up to the first one that
    raises. *)
Definition shown_value (m : Metrics.Metric) : Value :=
  match Metrics.value m with
  | Some v => Computed v
  | None => NotComputedValue
  end.

Definition shown_units (m : Metrics.Metric) : string :=
  match Metrics.value m with
  | Some _ => match Metrics.get_units m with Some u => u | None => "" end
  | None => ""
  end.

Definition shown_comparative (m : Metrics.Metric) : option Metrics.Tag :=
  match Metrics.value m with
  | Some _ => Metrics.get_comparative m
  | None => Some (Metrics.Member Metrics.NONE)
  end.

Definition label (m : Metrics.Metric) : string :=
  Metrics.friendly_name m ++ " (" ++ shown_units m ++ ")".

Definition shown (m : Metrics.Metric) : string * Value * string * string :=
  (Metrics.friendly_name m, shown_value m, shown_units m, Metrics.description m).

Definition notes (ms : list Metrics.Metric) : string :=
  Layout.concat
    (map (fun m => Layout.note_line (Metrics.friendly_name m) (Metrics.description m))
         ms).

Fixpoint collect {A : Type} (row : A -> result string) (l : list A)
  : result string :=
  match l with
  | [] => Ok ""
  | x :: l' => r ← row x; rs ← collect row l'; Ok (r ++ rs)
  end.

Definition one_model_entry (m : Metrics.Metric) : result string :=
  cell ← Formatter.format_value 20 4 (shown_value m);
  Ok (Layout.one_model_line (label m) cell).

(** The text of a reserved entry, [name] or [backend], as the heads of
    the tables use it: the entry must be there and be a [str] *)
Definition reserved (k : string) (d : Dict.t PyObj) : result string :=
  match Dict.get k d with
  | None => Raise KeyError
  | Some (PyStr t) => Ok t
  | Some _ => Raise TypeError
  end.

(** The frame of the two-model table, and the entries of the first
    mapping that get a row against the second: the Metric entries whose
    key the second mapping has *)
Definition two_models_border : string :=
  "+" ++ Str.repeat "-" 41 ++ "+" ++ Str.repeat "-" 26 ++ "+"
      ++ Str.repeat "-" 26 ++ "+" ++ Str.repeat "-" 26 ++ "+" ++ Formatter.nl.

Definition two_models_head (name name_2 backend backend_2 : string) : string :=
  ("+" ++ Str.repeat "-" 122 ++ "+" ++ Formatter.nl)
  ++ ("|" ++ Str.center 122 "Deeplite Profiler" ++ "|" ++ Formatter.nl)
  ++ two_models_border
  ++ ("|" ++ Str.rjust 40 "Param Name" ++ " | "
          ++ Str.rjust 25 "Enhancement" ++ "| "
          ++ Str.rjust 25 ("Value (" ++ name ++ ")") ++ "| "
          ++ Str.rjust 25 ("Value (" ++ name_2 ++ ")") ++ "|" ++ Formatter.nl)
  ++ ("|" ++ Str.rjust 40 "" ++ " | " ++ Str.rjust 25 "" ++ "| "
          ++ Str.rjust 25 ("Backend: " ++ backend) ++ "| "
          ++ Str.rjust 25 ("Backend: " ++ backend_2) ++ "|" ++ Formatter.nl)
  ++ two_models_border.

Definition shared_metrics (a b : Dict.t PyObj) : list (string * Metrics.Metric) :=
  omap (fun e : string * PyObj =>
          match e.2 with
          | PyMetric m => if Dict.contains e.1 b then Some (e.1, m) else None
          | _ => None
          end) a.

Definition two_models_entry
    (Comparative_of_str : string -> option Metrics.Comparative)
    (compare_status_values :
       Metrics.Comparative -> Value -> Value -> result (option Num.Number))
    (b : Dict.t PyObj) (e : string * Metrics.Metric) : result string :=
  sv2 ← Dict.getitem e.1 b;
  '(_, value_2, units_2, _, _) ← Formatter.parse_metric sv2;
  val ← Formatter.enhancement Comparative_of_str compare_status_values
          (shown_comparative e.2) (shown_value e.2) value_2
          (shown_units e.2) units_2;
  cell_1 ← Formatter.format_value 25 4 (shown_value e.2);
  cell_2 ← Formatter.format_value 25 4 value_2;
  Ok (Layout.two_models_line (label e.2) val cell_1 cell_2).

(** The metrics that a mapping holds under the keys [ks], in the order
    of [ks] *)
Definition metrics_at (d : Dict.t PyObj) (ks : list string) : list Metrics.Metric :=
  omap (fun k => match Dict.get k d with
                 | Some (PyMetric m) => Some m
                 | _ => None
                 end) ks.

(** The text of a value before it is aligned in its cell: four decimals
    for a number, the token for a value that was not computed *)
Definition value_text (v : Value) : result string :=
  match v with
  | Computed n => f ← Num.to_float n; Ok (Num.format_float 4 f)
  | NotComputedValue => Ok "<NotComputed>"
  end.

(** ** The logger holder of formatter.py

    Lines 7 to 54: the class [_LoggerHolder], its one instance
    [_logger_holder] and the functions [getLogger] and [setLogger]. The
    class attribute and the attribute [_logger] of the instances are
    state, and so are the calls made on the logger objects; an exception
    leaves the state as it is when it is raised. *)

Module Logging.

(** An object handed over as a logger: its identity, the text [str]
    gives for it and the names of its attributes. [None] is no such
    object: a reference to a logger is an [option Obj]. *)
Record Obj : Type := {
  obj_id : string;
  obj_str : string;
  obj_attrs : list string
}.

(** What an attribute access gives: an attribute of a logger object, or
    the reference that the holder keeps *)
Inductive Attr : Type :=
| AttrOf (o : Obj) (item : string)
| Ref (o : option Obj).

Record state : Type := {
  singleton : bool;
  instances : list (option Obj);
  calls : list (Obj * string * string)
}.

Definition ML (A : Type) : Type := state -> result A * state.

#[global] Instance ML_ret : MRet ML := fun A a s => (Ok a, s).
#[global] Instance ML_bind : MBind ML := fun A B k m s =>
  match m s with
  | (Ok a, s') => k a s'
  | (Raise e, s') => (Raise e, s')
  end.

Definition lift {A} (r : result A) : ML A := fun s => (r, s).

(** [getattr(o, item)] on a logger reference; [None] has none of the
    attributes asked for here *)
Definition getattr (o : option Obj) (item : string) : result Attr :=
  match o with
  | Some o =>
      if bool_decide (item ∈ obj_attrs o) then Ok (AttrOf o item)
      else Raise AttributeError
  | None => Raise AttributeError
  end.

(** [a(msg)]: a call of a method of a logger object is recorded, object,
    method and message; a logger reference is not callable *)
Definition call (a : Attr) (msg : string) : ML unit := fun s =>
  match a with
  | AttrOf o item =>
      (Ok tt, {| singleton := singleton s; instances := instances s;
                 calls := calls s ++ [(o, item, msg)] |})
  | Ref _ => (Raise TypeError, s)
  end.

Definition str (o : option Obj) : string :=
  match o with
  | Some o => obj_str o
  | None => "None"
  end.

(** The attribute [_logger] of the instance [self], read and written *)
Definition read_logger (self : nat) : ML (option Obj) := fun s =>
  (Ok (default None (instances s !! self)), s).

Definition write_logger (self : nat) (o : option Obj) : ML unit := fun s =>
  (Ok tt, {| singleton := singleton s;
             instances := <[self := o]> (instances s);
             calls := calls s |}).

Section Holder.

(** The object that [logging.getLogger('deeplite_profiler')] returns,
    the same at every call *)
Variable std_logger : Obj.

(** [_LoggerHolder.__new__] *)
Definition __new__ : ML nat := fun s =>
  if singleton s then (Raise TypeError, s)
  else (Ok (length (instances s)),
        {| singleton := true;
           instances := instances s ++ [None];
           calls := calls s |}).

(** [_LoggerHolder.__init__] *)
Definition __init__ (self : nat) : ML unit := write_logger self None.

(** The call [_LoggerHolder()] *)
Definition _LoggerHolder : ML nat :=
  self ← __new__;
  _ ← __init__ self;
  mret self.

(** The property [logger]: its getter *)
Definition logger (self : nat) : ML (option Obj) :=
  held ← read_logger self;
  _ ← match held with
      | None =>
          _ ← write_logger self (Some std_logger);
          held ← read_logger self;
          debug ← lift (getattr held "debug");
          call debug
            "Defaulting to logging.getLogger('deeplite_profiler')'s logger"
      | Some _ => mret tt
      end;
  read_logger self.

(** The property [logger]: its setter *)
Definition logger_setter (self : nat) (new_logger : option Obj) : ML unit :=
  _ ← write_logger self new_logger;
  held ← read_logger self;
  debug ← lift (getattr held "debug");
  call debug ("Profiler's logger set to " ++ str new_logger).

(** [_LoggerHolder.__getattribute__] *)
Definition __getattribute__ (self : nat) (item : string) : ML Attr :=
  if bool_decide (item ∈ ["logger"; "_logger"]) then
    if String.eqb item "logger"
    then held ← logger self; mret (Ref held)
    else held ← read_logger self; mret (Ref held)
  else
    held ← logger self;
    lift (getattr held item).

(** The module before line 40 is run, and line 40 itself:
    [_logger_holder = _LoggerHolder()] makes the first instance *)
Definition initial : state :=
  {| singleton := false; instances := []; calls := [] |}.

Definition _logger_holder : nat := 0.

Definition loaded : state := snd (_LoggerHolder initial).

(** [getLogger] and [setLogger] *)
Definition getLogger (name : option string) : ML nat := mret _logger_holder.

Definition setLogger (logger : option Obj) : ML unit :=
  logger_setter _logger_holder logger.

(** What a user of the module can do with it: make another holder, ask
    for the handle, set the logger, read an attribute through the handle
    and call a method through it *)
Inductive op : Type :=
| Construct
| GetLogger (name : option string)
| SetLogger (logger : option Obj)
| GetAttribute (item : string)
| CallMethod (item msg : string).

Definition run_op (o : op) : ML unit :=
  match o with
  | Construct => _ ← _LoggerHolder; mret tt
  | GetLogger name => _ ← getLogger name; mret tt
  | SetLogger l => setLogger l
  | GetAttribute item =>
      h ← getLogger None; _ ← __getattribute__ h item; mret tt
  | CallMethod item msg =>
      h ← getLogger None; a ← __getattribute__ h item; call a msg
  end.

(** The state after a sequence of such operations, each of which may
    have raised *)
Definition exec (ops : list op) (s : state) : state :=
  foldl (fun s o => snd (run_op o s)) s ops.

End Holder.

(** One holder exists and the class knows it *)
Definition one_holder (s : state) : Prop :=
  singleton s = true /\ length (instances s) = 1%nat.

Definition preserves {A} (m : ML A) : Prop :=
  forall s, one_holder s -> one_holder (snd (m s)).

(** The two messages of lines 28 and 34 *)
Definition defaulting : string :=
  "Defaulting to logging.getLogger('deeplite_profiler')'s logger".

Definition set_to (o : Obj) : string :=
  "Profiler's logger set to " ++ obj_str o.

(** Loggers of the examples: the one of the [logging] module, one of a
    caller, and an object that is no logger *)
Definition deeplite_logger : Obj :=
  {| obj_id := "deeplite_profiler";
     obj_str := "<Logger deeplite_profiler (WARNING)>";
     obj_attrs := ["debug"; "info"; "warning"; "error"] |}.

Definition custom_logger : Obj :=
  {| obj_id := "custom";
     obj_str := "<Logger custom (DEBUG)>";
     obj_attrs := ["debug"; "info"; "warning"; "error"] |}.

Definition stream : Obj :=
  {| obj_id := "stdout";
     obj_str := "<_io.TextIOWrapper name='<stdout>'>";
     obj_attrs := ["write"; "flush"] |}.

End Logging.

(** * Properties *)

Import Num Metrics Formatter.

(** ** Strings *)

Section StrFacts.
Import Str.

Lemma repeat_nonpos c n : n <= 0 -> repeat c n = "".
Proof. intros H. unfold repeat. now replace (Z.to_nat n) with O by lia. Qed.

Lemma repeat_max c n : repeat c (Z.max n 0) = repeat c n.
Proof. unfold repeat. do 2 f_equal. lia. Qed.

Lemma length_string_of_list l :
  String.length (string_of_list_ascii l) = List.length l.
Proof. induction l as [|a l IH]; simpl; congruence. Qed.

Lemma len_repeat c n : 0 <= n -> len (repeat c n) = n.
Proof.
  intros H. unfold len, repeat.
  rewrite length_string_of_list, repeat_length. lia.
Qed.

Lemma length_app_string s t :
  String.length (s ++ t) = (String.length s + String.length t)%nat.
Proof. induction s as [|a s IH]; simpl; [reflexivity | now rewrite IH]. Qed.

Lemma len_app s t : len (s ++ t) = len s + len t.
Proof. unfold len. rewrite length_app_string. lia. Qed.

Lemma rjust_short w s : w <= len s -> rjust w s = s.
Proof. intros H. unfold rjust. rewrite repeat_nonpos by lia. reflexivity. Qed.

Lemma len_rjust w s : len s <= w -> len (rjust w s) = w.
Proof.
  intros H. unfold rjust. rewrite len_app, len_repeat by lia. lia.
Qed.

Lemma contains_app c s t : contains c (s ++ t) = contains c s || contains c t.
Proof.
  induction s as [|a s IH]; simpl; [reflexivity|].
  destruct (Ascii.eqb a c); [reflexivity | exact IH].
Qed.

Lemma split_nonempty c s : split c s <> [].
Proof.
  destruct s as [|a s]; simpl; [discriminate|].
  destruct (Ascii.eqb a c); [discriminate|].
  destruct (split c s); discriminate.
Qed.

Lemma split_absent c s : contains c s = false -> split c s = [s].
Proof.
  induction s as [|a s IH]; simpl; [reflexivity|].
  destruct (Ascii.eqb a c); [discriminate|].
  intros H. rewrite (IH H). reflexivity.
Qed.

Lemma split_last_field c pre s :
  contains c s = false ->
  exists x l, split c (pre ++ String c s) = x :: (l ++ [s])%list.
Proof.
  intros Hs. induction pre as [|a pre IH]; simpl.
  - rewrite Ascii.eqb_refl, (split_absent _ _ Hs). now exists "", [].
  - destruct IH as (x & l & ->). destruct (Ascii.eqb a c).
    + now exists "", (x :: l).
    + now exists (String a x), l.
Qed.

(** [s.split(c)[-1]] is what follows the last separator *)
Lemma last_split c pre s :
  contains c s = false -> last (split c (pre ++ String c s)) = s.
Proof.
  intros Hs. destruct (split_last_field c pre s Hs) as (x & l & ->).
  unfold last. change (x :: (l ++ [s])%list) with ((x :: l) ++ [s])%list.
  apply List.last_last.
Qed.

(** [s.split(c)[0]] is what precedes the first separator *)
Lemma first_split c s t :
  contains c s = false -> first (split c (s ++ String c t)) = s.
Proof.
  unfold first. induction s as [|a s IH]; simpl.
  - now rewrite Ascii.eqb_refl.
  - destruct (Ascii.eqb a c); [discriminate|]. intros H.
    specialize (IH H).
    destruct (split c (s ++ String c t)); simpl in *; now subst.
Qed.

Lemma all_chars_decimal_of_uint d :
  all_chars is_decimal_char (NilEmpty.string_of_uint d) = true.
Proof. induction d; simpl; auto. Qed.

Lemma all_chars_weaken (p q : ascii -> bool) s :
  (forall a, p a = true -> q a = true) ->
  all_chars p s = true -> all_chars q s = true.
Proof.
  intros Hpq. induction s as [|a s IH]; simpl; [auto|].
  rewrite !andb_true_iff. intros [Ha Hs]. auto.
Qed.

Lemma contains_all_chars (p : ascii -> bool) c s :
  p c = false -> all_chars p s = true -> contains c s = false.
Proof.
  intros Hc. induction s as [|a s IH]; simpl; [auto|].
  rewrite andb_true_iff. intros [Ha Hs].
  destruct (Ascii.eqb_spec a c) as [->|_]; [congruence | auto].
Qed.

Lemma of_int_nonempty n : of_int n <> "".
Proof.
  unfold of_int. destruct (Z.to_N n) as [|p]; simpl; [discriminate|].
  pose proof (DecimalPos.Unsigned.to_uint_nonnil p) as Hp.
  destruct (Pos.to_uint p); [congruence | discriminate..].
Qed.

Lemma of_int_decimal n : all_chars is_decimal_char (of_int n) = true.
Proof. apply all_chars_decimal_of_uint. Qed.

Lemma isdigit_of_int n : isdigit (of_int n) = true.
Proof.
  pose proof (of_int_nonempty n) as Hne. pose proof (of_int_decimal n) as Hd.
  unfold isdigit. destruct (of_int n); [congruence|].
  apply all_chars_weaken with (p := is_decimal_char); [|exact Hd].
  intros c Hc. unfold is_digit_char. now rewrite Hc.
Qed.

(** The numeral of a number has at most as many digits as the number
    has bits *)
Lemma length_string_of_uint d :
  String.length (NilEmpty.string_of_uint d) = Decimal.nb_digits d.
Proof. induction d; simpl; auto. Qed.

Lemma nb_digits_double d :
  (Decimal.nb_digits (Decimal.Little.double d) <= S (Decimal.nb_digits d))%nat
  /\ (Decimal.nb_digits (Decimal.Little.succ_double d)
      <= S (Decimal.nb_digits d))%nat.
Proof. induction d; simpl; split; lia. Qed.

Lemma nb_digits_to_little p :
  (Decimal.nb_digits (Pos.to_little_uint p) <= Pos.size_nat p)%nat.
Proof.
  induction p as [p IH|p IH|]; simpl.
  - pose proof (proj2 (nb_digits_double (Pos.to_little_uint p))). lia.
  - pose proof (proj1 (nb_digits_double (Pos.to_little_uint p))). lia.
  - lia.
Qed.

Lemma size_nat_bound p (k : nat) : Zpos p < 2 ^ Z.of_nat k -> (Pos.size_nat p <= k)%nat.
Proof.
  revert k. induction p as [p IH|p IH|]; intros [|k] H; simpl in *; try lia.
  - apply le_n_S, IH. rewrite Nat2Z.inj_succ, Z.pow_succ_r in H; lia.
  - rewrite Nat2Z.inj_succ, Z.pow_succ_r in H by lia.
    apply le_n_S, IH. lia.
Qed.

Lemma len_of_int_bound n (k : nat) :
  0 <= n < 2 ^ Z.of_nat k -> len (of_int n) <= Z.max 1 (Z.of_nat k).
Proof.
  intros Hn. unfold len, of_int. rewrite length_string_of_uint.
  destruct (Z.to_N n) as [|p] eqn:E; [simpl; lia|].
  unfold N.to_uint, Pos.to_uint. rewrite DecimalFacts.nb_digits_rev.
  pose proof (nb_digits_to_little p) as H1.
  assert (H2 : (Pos.size_nat p <= k)%nat) by (apply size_nat_bound; lia).
  lia.
Qed.

Lemma len_of_int_small n : 0 <= n <= 65536 -> len (of_int n) <= 17.
Proof.
  intros Hn. pose proof (len_of_int_bound n 17) as H.
  change (2 ^ Z.of_nat 17) with 131072 in H. lia.
Qed.

(** [int(str(n)) = n], also after a zero *)
Lemma int_of_int n : 0 <= n <= 65536 -> int (of_int n) = Ok n.
Proof.
  intros Hn. pose proof (of_int_nonempty n) as Hne.
  pose proof (len_of_int_small n Hn) as Hlen. unfold int.
  destruct (of_int n) eqn:E; [congruence|]. rewrite <- E in Hlen |- *.
  replace (max_str_digits <? len (of_int n)) with false
    by (symmetry; apply Z.ltb_ge; unfold max_str_digits; lia).
  unfold of_int.
  rewrite NilEmpty.usu, DecimalN.Unsigned.of_to. f_equal. lia.
Qed.

Lemma uint_of_string_zeros (k : nat) d :
  NilEmpty.uint_of_string (Nat.iter k (String "0") (NilEmpty.string_of_uint d))
  = Some (Nat.iter k Decimal.D0 d).
Proof.
  induction k as [|k IH]; [apply NilEmpty.usu|].
  rewrite !Nat.iter_succ. cbn [NilEmpty.uint_of_string]. now rewrite IH.
Qed.

Lemma of_uint_zeros (k : nat) d :
  N.of_uint (Nat.iter k Decimal.D0 d) = N.of_uint d.
Proof.
  induction k as [|k IH]; [reflexivity|]. rewrite Nat.iter_succ. exact IH.
Qed.

Lemma len_zeros (k : nat) x :
  len (Nat.iter k (String "0") x) = Z.of_nat k + len x.
Proof.
  unfold len. induction k as [|k IH]; [reflexivity|].
  rewrite Nat.iter_succ. cbn [String.length]. lia.
Qed.

Lemma int_zeros_of_int (k : nat) n :
  (k <= 4000)%nat -> 0 <= n <= 65536 ->
  int (Nat.iter k (String "0") (of_int n)) = Ok n.
Proof.
  intros Hk Hn. destruct k as [|k]; [now apply int_of_int|].
  pose proof (len_of_int_small n Hn) as Hlen.
  pose proof (len_zeros (S k) (of_int n)) as Hz. unfold int.
  rewrite Nat.iter_succ in Hz |- *.
  replace (max_str_digits <? _) with false
    by (symmetry; apply Z.ltb_ge; unfold max_str_digits; lia).
  rewrite <- Nat.iter_succ. unfold of_int. rewrite uint_of_string_zeros, of_uint_zeros.
  rewrite DecimalN.Unsigned.of_to. f_equal. lia.
Qed.

Lemma mul_small c n : n <= maxsize -> mul c n = Ok (repeat c n).
Proof.
  intros Hn. unfold mul.
  now replace (maxsize <? n) with false by (symmetry; apply Z.ltb_ge; lia).
Qed.

Lemma of_int_no_gt n : contains ">" (of_int n) = false.
Proof. apply contains_all_chars with (p := is_decimal_char); [reflexivity | apply of_int_decimal]. Qed.

Lemma of_int_no_dot n : contains "." (of_int n) = false.
Proof. apply contains_all_chars with (p := is_decimal_char); [reflexivity | apply of_int_decimal]. Qed.

End StrFacts.

(** ** The placeholder and the metric adapter *)

Lemma append_assoc (s t u : string) : (s ++ t) ++ u = s ++ (t ++ u).
Proof. induction s as [|a s IH]; simpl; [reflexivity | now rewrite IH]. Qed.

Lemma append_nil_r (s : string) : s ++ "" = s.
Proof. induction s as [|a s IH]; simpl; [reflexivity | now rewrite IH]. Qed.

(** What [__format__] does with the text after the last [>] *)
Lemma NotComputedValue_format_tail (pre tail : string) :
  Str.contains ">" tail = false ->
  NotComputedValue_format (pre ++ ">" ++ tail)
  = let text := if Str.contains "." tail
                then Str.first (Str.split "." tail) else tail in
    if Str.isdigit text then
      w ← Str.int text;
      pad ← Str.mul " " (Z.max (w - 13) 0);
      Ok (pad ++ "<NotComputed>")
    else Ok "<NotComputed>".
Proof.
  intros Htail. unfold NotComputedValue_format.
  replace (Str.contains ">" (pre ++ ">" ++ tail)) with true.
  2:{ rewrite contains_app. simpl. now rewrite orb_true_r. }
  change (pre ++ ">" ++ tail) with (pre ++ String ">" tail).
  now rewrite (last_split _ _ _ Htail).
Qed.

(** The padding for a width within the bound *)
Lemma pad_small (w : Z) :
  0 <= w <= 65536 ->
  (pad ← Str.mul " " (Z.max (w - 13) 0); Ok (pad ++ "<NotComputed>"))
  = Ok (Str.rjust w "<NotComputed>").
Proof.
  intros Hw. rewrite mul_small by (unfold Str.maxsize; lia).
  cbn [mbind result_bind]. unfold Str.rjust.
  change (Str.len "<NotComputed>") with 13. now rewrite repeat_max.
Qed.

(** When the text between the last [>] and the first following [.] is the
    decimal numeral of [w], the token is padded to the width [w] *)
Lemma NotComputedValue_format_width (pre rest : string) (w : Z) :
  0 <= w <= 65536 -> Str.contains ">" rest = false ->
  NotComputedValue_format (pre ++ ">" ++ Str.of_int w ++ "." ++ rest)
  = Ok (Str.rjust w "<NotComputed>").
Proof.
  intros Hw Hrest. rewrite NotComputedValue_format_tail.
  2:{ rewrite contains_app, of_int_no_gt. simpl. exact Hrest. }
  cbn zeta.
  replace (Str.contains "." (Str.of_int w ++ "." ++ rest)) with true.
  2:{ rewrite contains_app. simpl. now rewrite orb_true_r. }
  change (Str.of_int w ++ "." ++ rest) with (Str.of_int w ++ String "." rest).
  rewrite (first_split _ _ _ (of_int_no_dot w)).
  rewrite isdigit_of_int, (int_of_int _ Hw). cbn [mbind result_bind].
  now apply pad_small.
Qed.

Lemma format_value_not_computed (w : Z) (p : nat) :
  0 <= w <= 65536 ->
  format_value w p NotComputedValue = Ok (Str.rjust w "<NotComputed>").
Proof.
  intros Hw. unfold format_value, format_spec_f.
  apply (NotComputedValue_format_width "" _ w Hw).
  rewrite contains_app, of_int_no_gt. reflexivity.
Qed.

(** C6. For every metric object, [parse_metric] returns the 5-tuple
    (friendly name, value, units, comparative, description). With an
    absent value, the value is the [NotComputedValue] placeholder, the
    units are the empty string and the comparative is [Comparative.NONE];
    otherwise the value is the metric's value as it is, the units are the
    metric's units, or the empty string when they are [None], and the
    comparative is the metric's tag. The description is the metric's
    description in both cases. *)
Theorem parse_metric_tuple (text desc : string) (units : option string)
    (comparative : option Tag) :
  parse_metric (PyMetric {| friendly_name := text; value := None;
                            get_units := units;
                            get_comparative := comparative;
                            description := desc |})
  = Ok (text, NotComputedValue, "", Some (Member NONE), desc)
  /\ forall v : Number,
       parse_metric (PyMetric {| friendly_name := text; value := Some v;
                                 get_units := units;
                                 get_comparative := comparative;
                                 description := desc |})
       = Ok (text, Computed v, default "" units, comparative, desc).
Proof.
  split; [reflexivity|]. intros v. now destruct units.
Qed.

(** ** The one-model table *)

Import Layout.

(** The table is its head, the rows the loop adds, the closing border
    and the footnote *)
Lemma make_one_model_frame (status_dict : Dict.t PyObj) (short_print : bool)
    (description_str summary_str name backend : string) :
  Dict.get "name" status_dict = Some (PyStr name) ->
  Dict.get "backend" status_dict = Some (PyStr backend) ->
  make_one_model_summary_str status_dict short_print description_str summary_str
  = '(s, ds) ← for_each (one_model_row 40 20) (Dict.values status_dict)
                 (summary_str ++ one_model_head name backend, description_str);
    Ok (s ++ one_model_border ++ footnote 63 short_print ds).
Proof.
  intros Hname Hbackend. unfold make_one_model_summary_str, Dict.getitem.
  rewrite Hname, Hbackend. cbn [mbind result_bind str_add].
  match goal with
  | |- context [for_each _ _ (?s, _)] =>
      replace s with (summary_str ++ one_model_head name backend)
  end.
  2:{ unfold one_model_head, one_model_border.
      rewrite <- !append_assoc. reflexivity. }
  destruct (for_each _ _ _) as [[s ds]|e]; [|reflexivity].
  cbn [mbind result_bind]. unfold footnote, one_model_border.
  destruct short_print; cbn [negb].
  - now rewrite append_nil_r.
  - now rewrite <- !append_assoc.
Qed.

(** A metric without a value gives a row whose value cell is the token,
    right-aligned in the twenty columns of the numeric cells *)
Lemma one_model_row_not_computed (m : Metric) (s ds : string) :
  value m = None ->
  one_model_row 40 20 (s, ds) (PyMetric m)
  = Ok (s ++ one_model_line (friendly_name m ++ " ()") "       <NotComputed>",
        ds ++ note_line (friendly_name m) (description m)).
Proof.
  intros Hv. unfold one_model_row, parse_metric. rewrite Hv.
  cbn [isinstance_Metric negb mbind result_bind].
  rewrite format_value_not_computed by lia. cbn [mbind result_bind].
  unfold one_model_line. now rewrite !append_assoc.
Qed.

Lemma one_model_rows_not_computed (vals : list PyObj) (s ds : string) :
  let ms := omap (fun o => match o with PyMetric m => Some m | _ => None end) vals in
  (forall m, m ∈ ms -> value m = None) ->
  for_each (one_model_row 40 20) vals (s, ds)
  = Ok (s ++ concat (map (fun m => one_model_line (friendly_name m ++ " ()")
                                                  "       <NotComputed>") ms),
        ds ++ concat (map (fun m => note_line (friendly_name m) (description m)) ms)).
Proof.
  revert s ds. induction vals as [|o vals IH]; intros s ds ms Hms.
  - cbn. now rewrite !append_nil_r.
  - cbn [for_each]. destruct o as [t|m|n|].
    2:{ subst ms. simpl omap in *.
        rewrite one_model_row_not_computed by (apply Hms; left).
        cbn [mbind result_bind]. rewrite IH.
        - cbn [map concat foldr]. now rewrite !append_assoc.
        - intros m' Hm'. apply Hms. now right. }
    all: cbn [one_model_row isinstance_Metric negb mbind result_bind];
      apply IH; exact Hms.
Qed.

Lemma all_chars_app (p : ascii -> bool) (s t : string) :
  Str.all_chars p (s ++ t) = Str.all_chars p s && Str.all_chars p t.
Proof.
  induction s as [|a s IH]; simpl; [reflexivity|].
  now rewrite IH, andb_assoc.
Qed.

(** *** The placeholder under the right-aligned specifications *)

Section PlaceholderSpecs.
Import FormatSpec.

Lemma isdigit_all_chars (x : string) :
  Str.all_chars Str.is_digit_char x = false -> Str.isdigit x = false.
Proof. unfold Str.isdigit. now destruct x. Qed.

Lemma flags_facts (s : t) :
  Str.contains ">" (flags s) = false
  /\ Str.contains "." (flags s) = false
  /\ (Str.all_chars Str.is_digit_char (flags s) = true -> flags s = "").
Proof.
  unfold flags. destruct (sign s) as [[]|], (z s), (alternate s);
    (split; [reflexivity|]; split; [reflexivity|]);
    intros H; try reflexivity; discriminate H.
Qed.

Lemma grouping_facts (g : option Grouping) :
  Str.contains ">" (opt grouping_text g) = false
  /\ Str.contains "." (opt grouping_text g) = false
  /\ (Str.all_chars Str.is_digit_char (opt grouping_text g) = true ->
      opt grouping_text g = "").
Proof.
  destruct g as [[]|];
    (split; [reflexivity|]; split; [reflexivity|]);
    intros H; try reflexivity; discriminate H.
Qed.

Lemma type_facts (p : option Presentation) :
  Str.contains ">" (opt type_text p) = false
  /\ Str.contains "." (opt type_text p) = false
  /\ (Str.all_chars Str.is_digit_char (opt type_text p) = true ->
      opt type_text p = "").
Proof.
  destruct p as [[]|];
    (split; [reflexivity|]; split; [reflexivity|]);
    intros H; try reflexivity; discriminate H.
Qed.

Lemma precision_no_gt (p : option nat) :
  Str.contains ">" (opt precision_text p) = false.
Proof.
  destruct p as [p|]; [|reflexivity]. cbn [opt]. unfold precision_text.
  rewrite contains_app, of_int_no_gt. reflexivity.
Qed.

Lemma digits_facts (s : t) :
  Str.contains ">" (digits s) = false
  /\ Str.contains "." (digits s) = false
  /\ Str.all_chars Str.is_digit_char (digits s) = true
  /\ Str.isdigit (digits s) = true
  /\ ((zeros s <= 4000)%nat -> 0 <= width s <= 65536 ->
      Str.int (digits s) = Ok (width s)).
Proof.
  assert (Hall : Str.all_chars Str.is_digit_char (Str.of_int (width s)) = true).
  { apply all_chars_weaken with (p := Str.is_decimal_char);
      [|apply of_int_decimal].
    intros c Hc. unfold Str.is_digit_char. now rewrite Hc. }
  unfold digits.
  assert (H : Str.contains ">" (Nat.iter (zeros s) (String "0") (Str.of_int (width s))) = false
              /\ Str.contains "." (Nat.iter (zeros s) (String "0") (Str.of_int (width s))) = false
              /\ Str.all_chars Str.is_digit_char
                   (Nat.iter (zeros s) (String "0") (Str.of_int (width s))) = true).
  { induction (zeros s) as [|k (IH1 & IH2 & IH3)]; rewrite ?Nat.iter_succ.
    - split; [apply of_int_no_gt|]. split; [apply of_int_no_dot | exact Hall].
    - split; [cbn; exact IH1|]. split; [cbn; exact IH2 | cbn; exact IH3]. }
  destruct H as (H1 & H2 & H3).
  split; [exact H1|]. split; [exact H2|]. split; [exact H3|]. split.
  - destruct (zeros s) as [|k]; [apply isdigit_of_int|].
    rewrite Nat.iter_succ in H3 |- *. exact H3.
  - apply int_zeros_of_int.
Qed.

Lemma padded_eq (s : t) :
  padded s
  = Str.all_chars Str.is_digit_char (flags s)
    && Str.all_chars Str.is_digit_char (opt grouping_text (grouping s))
    && (match precision s with Some _ => true | None => false end
        || Str.all_chars Str.is_digit_char (opt type_text (type s))).
Proof.
  unfold padded, flags.
  destruct (sign s) as [[]|], (z s), (alternate s), (grouping s) as [[]|];
    try reflexivity;
    destruct (precision s); try reflexivity;
    destruct (type s) as [[]|]; reflexivity.
Qed.

(** Every right-aligned fixed-width specification with a width up to
    65536, written after at most 4000 zeros, gives the token, padded to the width when nothing but digits
    stands between [>] and the precision or the end *)
Lemma NotComputedValue_format_spec (s : t) :
  (zeros s <= 4000)%nat -> 0 <= width s <= 65536 ->
  NotComputedValue_format (text s)
  = Ok (if padded s then Str.rjust (width s) "<NotComputed>"
        else "<NotComputed>").
Proof.
  intros Hz Hw.
  destruct (flags_facts s) as (Hf1 & Hf2 & Hf3).
  destruct (grouping_facts (grouping s)) as (Hg1 & Hg2 & Hg3).
  destruct (type_facts (type s)) as (Ht1 & Ht2 & Ht3).
  destruct (digits_facts s) as (Hd1 & Hd2 & Hd3 & Hd4 & Hd5).
  pose proof (padded_eq s) as Hpad.
  unfold text. rewrite NotComputedValue_format_tail.
  2:{ rewrite !contains_app, Hf1, Hd1, Hg1, Ht1, precision_no_gt. reflexivity. }
  cbn zeta. destruct (precision s) as [p|]; cbn [opt orb] in Hpad |- *.
  - replace (flags s ++ digits s ++ opt grouping_text (grouping s)
               ++ precision_text p ++ opt type_text (type s))
      with ((flags s ++ digits s ++ opt grouping_text (grouping s))
              ++ String "." (Str.of_int (Z.of_nat p) ++ opt type_text (type s)))
      by (rewrite !append_assoc; reflexivity).
    replace (Str.contains "." _) with true.
    2:{ rewrite contains_app. simpl. now rewrite orb_true_r. }
    rewrite first_split by (rewrite !contains_app, Hf2, Hd2, Hg2; reflexivity).
    rewrite andb_true_r in Hpad. destruct (padded s).
    + symmetry in Hpad. apply andb_true_iff in Hpad as [Hf Hg].
      rewrite (Hf3 Hf), (Hg3 Hg), append_nil_r. cbn [String.append].
      rewrite Hd4, (Hd5 Hz Hw). cbn [mbind result_bind]. now apply pad_small.
    + rewrite isdigit_all_chars; [reflexivity|].
      rewrite !all_chars_app, Hd3, andb_true_l. now rewrite andb_comm in Hpad |- *.
  - cbn [String.append]. 
    replace (Str.contains "." _) with false
      by (rewrite !contains_app, Hf2, Hd2, Hg2, Ht2; reflexivity).
    destruct (padded s).
    + symmetry in Hpad.
      apply andb_true_iff in Hpad as [Hfg Hty].
      apply andb_true_iff in Hfg as [Hf Hg].
      rewrite (Hf3 Hf), (Hg3 Hg), (Ht3 Hty), append_nil_r.
      cbn [String.append].
      rewrite Hd4, (Hd5 Hz Hw). cbn [mbind result_bind]. now apply pad_small.
    + rewrite isdigit_all_chars; [reflexivity|].
      rewrite !all_chars_app, Hd3, andb_true_l.
      rewrite Hpad. now rewrite andb_assoc.
Qed.

End PlaceholderSpecs.

(** C7, as amended. Formatting a [NotComputedValue] with a right-aligned
    fixed-width specification
    [[fill]>[sign][z][#][0]W[grouping][.precision][type]] whose width [W]
    is at most 65536, after at most 4000 zeros, does not raise. It yields the token [<NotComputed>]
    padded on the left with spaces to the width [W] (unpadded when [W] is
    at most the length of the token) when the specification has no sign,
    no [z], no [#] and no grouping option and it gives a precision or
    gives no presentation type, as [>20.4f], [>20.4e], [>20] and
    [*>020.4f] do; under every other such specification, as [>20f],
    [>+20.4f] and [>20,.4f], it yields the token as it is. Hence the
    one-model table of a status whose metrics all lack a value is
    returned without an exception, and every value cell of it is the
    token, right-aligned in the twenty columns of the numeric cells. *)
Theorem NotComputedValue_format_padded
    (spec : FormatSpec.t)
    (status_dict : Dict.t PyObj) (short_print : bool) (name backend : string)
    (Hzeros : (FormatSpec.zeros spec <= 4000)%nat)
    (Hw : 0 <= FormatSpec.width spec <= 65536)
    (Hname : Dict.get "name" status_dict = Some (PyStr name))
    (Hbackend : Dict.get "backend" status_dict = Some (PyStr backend))
    (Hvalues : forall m, m ∈ metrics status_dict -> value m = None) :
  let w := FormatSpec.width spec in
  NotComputedValue_format (FormatSpec.text spec)
  = Ok (if FormatSpec.padded spec then Str.rjust w "<NotComputed>"
        else "<NotComputed>")
  /\ (w <= 13 -> Str.rjust w "<NotComputed>" = "<NotComputed>")
  /\ (13 <= w -> Str.len (Str.rjust w "<NotComputed>") = w)
  /\ make_one_model_summary_str status_dict short_print "" nl
     = Ok (nl ++ one_model_head name backend
              ++ concat (map (fun m => one_model_line (friendly_name m ++ " ()")
                                                      "       <NotComputed>")
                             (metrics status_dict))
              ++ one_model_border
              ++ footnote 63 short_print
                   (concat (map (fun m => note_line (friendly_name m) (description m))
                                (metrics status_dict)))).
Proof.
  intros w. split; [now apply NotComputedValue_format_spec|].
  split; [intros H; now apply rjust_short|].
  split; [intros H; now apply len_rjust|].
  rewrite (make_one_model_frame _ _ _ _ _ _ Hname Hbackend).
  rewrite one_model_rows_not_computed by exact Hvalues.
  cbn [mbind result_bind]. fold (metrics status_dict).
  now rewrite !append_assoc.
Qed.

Lemma NotComputedValue_format_padded_witness :
  NotComputedValue_format ">20.4f" = Ok "       <NotComputed>"
  /\ make_one_model_summary_str
       [("name", PyStr "m"); ("backend", PyStr "b");
        ("flops", PyMetric {| friendly_name := "FLOPs"; value := None;
                              get_units := Some "G";
                              get_comparative := Some (Member RATIO);
                              description := "operations" |})]
       true "" nl
     = Ok (nl ++ one_model_head "m" "b"
              ++ one_model_line "FLOPs ()" "       <NotComputed>"
              ++ one_model_border).
Proof.
  pose proof
    (NotComputedValue_format_padded (FormatSpec.fixed_point 20 (Some 4%nat))
       [("name", PyStr "m"); ("backend", PyStr "b");
        ("flops", PyMetric {| friendly_name := "FLOPs"; value := None;
                              get_units := Some "G";
                              get_comparative := Some (Member RATIO);
                              description := "operations" |})]
       true "m" "b" ltac:(cbn; lia) ltac:(cbn; lia) eq_refl eq_refl) as H.
  destruct H as (Hfmt & _ & _ & Htable).
  - intros m Hm. vm_compute in Hm. apply list_elem_of_singleton in Hm. now subst m.
  - split; [exact Hfmt | rewrite Htable; reflexivity].
Defined.

(** The claim as it stands fails twice. With the width followed at once
    by the presentation type, as in [>20f], the token is not padded; and
    with a width beyond [sys.maxsize + 13] the repetition of line 65
    raises [OverflowError]. *)
Lemma NotComputedValue_format_unpadded_20f :
  NotComputedValue_format (FormatSpec.text (FormatSpec.fixed_point 20 None))
  = Ok "<NotComputed>"
  /\ NotComputedValue_format (FormatSpec.text (FormatSpec.fixed_point 20 None))
     <> Ok (Str.rjust 20 "<NotComputed>")
  /\ NotComputedValue_format
       (FormatSpec.text (FormatSpec.fixed_point (2 ^ 63 + 13) (Some 4%nat)))
     = Raise OverflowError.
Proof.
  split; [reflexivity|]. split; [discriminate|]. vm_compute. reflexivity.
Qed.

(** ** The display policy *)

Section DictFacts.
Context {V : Type}.
Implicit Types (d acc : Dict.t V) (k : string) (v : V).

Lemma get_None k d : Dict.get k d = None <-> k ∉ Dict.keys d.
Proof.
  unfold Dict.keys. induction d as [|[k' v'] d IH]; simpl.
  - split; [intros _; apply not_elem_of_nil | reflexivity].
  - rewrite not_elem_of_cons. destruct (String.eqb_spec k' k) as [->|Hne].
    + split; [discriminate | intros [? _]; congruence].
    + rewrite IH. split; [intros ?; split; [congruence | assumption] | intros [_ ?]; assumption].
Qed.

Lemma get_Some k d : is_Some (Dict.get k d) <-> k ∈ Dict.keys d.
Proof.
  destruct (Dict.get k d) eqn:E.
  - split; [intros _ | eauto]. destruct (decide (k ∈ Dict.keys d)) as [|Hn]; [assumption|].
    apply get_None in Hn. congruence.
  - split; [intros [? ?]; discriminate|]. intros Hin. now apply get_None in E.
Qed.

Lemma contains_true k d : Dict.contains k d = true <-> k ∈ Dict.keys d.
Proof.
  rewrite <- get_Some. unfold Dict.contains.
  destruct (Dict.get k d); split; intros H; eauto; try discriminate.
  now destruct H.
Qed.

Lemma setitem_fresh k v d : Dict.get k d = None -> Dict.setitem k v d = (d ++ [(k, v)])%list.
Proof.
  induction d as [|[k' v'] d IH]; simpl; [reflexivity|].
  destruct (String.eqb k' k); [discriminate|]. intros H. now rewrite IH.
Qed.

Lemma get_app k d d' :
  Dict.get k (d ++ d')%list
  = match Dict.get k d with Some v => Some v | None => Dict.get k d' end.
Proof.
  induction d as [|[k' v'] d IH]; simpl; [reflexivity|].
  now destruct (String.eqb k' k).
Qed.

End DictFacts.

(** The entries that a key sequence selects from a dictionary *)
Lemma foldl_select (d acc : Dict.t PyObj) (ks : list string) :
  NoDup ks -> (forall k, k ∈ ks -> k ∉ Dict.keys acc) ->
  foldl (fun acc k => match Dict.get k d with
                      | Some v => Dict.setitem k v acc
                      | None => acc
                      end) acc ks
  = (acc ++ omap (fun k => v ← Dict.get k d; Some (k, v)) ks)%list.
Proof.
  intros Hnd. revert acc. induction Hnd as [|k ks Hk Hnd IH]; intros acc Hacc.
  - simpl. now rewrite app_nil_r.
  - simpl. destruct (Dict.get k d) as [v|] eqn:E; simpl.
    + rewrite setitem_fresh by (apply get_None, Hacc; left).
      rewrite IH, <- app_assoc; [reflexivity|].
      intros k' Hk'. unfold Dict.keys. rewrite fmap_app, elem_of_app. simpl.
      intros [H|H].
      * apply (Hacc k'); [now right | exact H].
      * apply list_elem_of_singleton in H. now subst.
    + apply IH. intros k' Hk'. apply Hacc. now right.
Qed.

Lemma select_eq (d : Dict.t PyObj) (ks : list string) :
  NoDup ks -> select ks d = omap (fun k => v ← Dict.get k d; Some (k, v)) ks.
Proof.
  intros Hnd. unfold select. rewrite foldl_select; [reflexivity | exact Hnd |].
  intros k _. apply not_elem_of_nil.
Qed.

(** A loop whose body rewrites the dictionary at [l] folds over the keys *)
Lemma for_fold {A : Type} (l : loc) (σ : store)
    (f : Dict.t PyObj -> A -> Dict.t PyObj) (body : A -> M unit) :
  (forall x acc, body x (<[l:=acc]> σ) = Ok (tt, <[l:=f acc x]> σ)) ->
  forall xs acc, for_ xs body (<[l:=acc]> σ) = Ok (tt, <[l:=foldl f acc xs]> σ).
Proof.
  intros Hbody. induction xs as [|x xs IH]; intros acc; simpl; [reflexivity|].
  unfold mbind, M_bind. rewrite Hbody. apply IH.
Qed.

(** The run of the function on a store: a fresh dictionary is allocated
    and filled, nothing else is written *)
Lemma default_display_filter_function_run
    (tuple : gset string -> list string) (σ : store) (a : loc) (d : Dict.t PyObj) :
  σ !! a = Some d ->
  default_display_filter_function tuple a σ
  = Ok (fresh (dom σ),
        <[fresh (dom σ) := select (order ++ tuple (leftover_set (Dict.keys d))) d]> σ).
Proof.
  intros Ha. set (l := fresh (dom σ)).
  assert (Hl : l ≠ a).
  { intros Heq. apply (is_fresh (dom σ)). fold l. rewrite Heq.
    apply elem_of_dom. eauto. }
  unfold default_display_filter_function, select.
  unfold mbind at 1, M_bind at 1, dict_keys, deref. rewrite Ha.
  change (default [] (Some d)) with d.
  unfold mbind at 1, M_bind at 1, new_OrderedDict. fold l.
  unfold mbind at 1, M_bind at 1.
  rewrite for_fold with (f := fun acc k => match Dict.get k d with
                                         | Some v => Dict.setitem k v acc
                                         | None => acc
                                         end); [reflexivity|].
  intros k acc.
  unfold mbind, M_bind, dict_contains, dict_getitem, dict_setitem, deref.
  rewrite lookup_insert_ne by exact Hl. rewrite Ha.
  change (default [] (Some d)) with d.
  unfold Dict.contains, Dict.getitem.
  destruct (Dict.get k d) as [v|] eqn:E; [|reflexivity].
  rewrite lookup_insert_ne by exact Hl. rewrite Ha.
  change (default [] (Some d)) with d. rewrite E.
  now rewrite lookup_insert_eq, insert_insert_eq.
Qed.

Lemma omap_cons {A B : Type} (f : A -> option B) (x : A) (l : list A) :
  omap f (x :: l)
  = match f x with Some y => y :: omap f l | None => omap f l end.
Proof. reflexivity. Qed.

Lemma keys_omap_entry (d : Dict.t PyObj) (ks : list string) :
  Dict.keys (omap (entry_of d) ks) = filter (.∈ Dict.keys d) ks.
Proof.
  unfold Dict.keys. induction ks as [|k ks IH]; [reflexivity|].
  rewrite omap_cons, filter_cons. unfold entry_of at 1.
  destruct (Dict.get k d) as [v|] eqn:E; simpl.
  - rewrite decide_True by (apply get_Some; eauto). f_equal. exact IH.
  - rewrite decide_False by (now apply get_None). exact IH.
Qed.

Lemma get_omap_entry (d : Dict.t PyObj) (ks : list string) (k : string) :
  Dict.get k (omap (entry_of d) ks)
  = if decide (k ∈ ks) then Dict.get k d else None.
Proof.
  induction ks as [|k' ks IH].
  - destruct (decide (k ∈ [])) as [H|_]; [|reflexivity].
    now apply elem_of_nil in H.
  - rewrite omap_cons. unfold entry_of at 1.
    destruct (decide (k ∈ ks)) as [Hin|Hin];
      destruct (decide (k ∈ k' :: ks)) as [Hin'|Hin'];
      rewrite elem_of_cons in Hin'; try tauto.
    + destruct (Dict.get k' d) as [v|] eqn:E; [|exact IH].
      cbn [mbind option_bind Dict.get].
      destruct (String.eqb_spec k' k) as [->|_]; [congruence | exact IH].
    + destruct Hin' as [->|?]; [|tauto]. destruct (Dict.get k' d) as [v|] eqn:E.
      * cbn [mbind option_bind Dict.get]. now rewrite String.eqb_refl.
      * cbn [mbind option_bind]. rewrite IH. reflexivity.
    + destruct (Dict.get k' d) as [v|] eqn:E; [|exact IH].
      cbn [mbind option_bind Dict.get].
      destruct (String.eqb_spec k' k) as [->|_]; [tauto | exact IH].
Qed.

Lemma omap_entry_ext (d d' : Dict.t PyObj) (ks : list string) :
  (forall k, k ∈ ks -> Dict.get k d' = Dict.get k d) ->
  omap (entry_of d') ks = omap (entry_of d) ks.
Proof.
  induction ks as [|k ks IH]; intros H; [reflexivity|].
  rewrite !omap_cons, IH by (intros k' Hk'; apply H; now right).
  unfold entry_of at 1 3. now rewrite (H k) by left.
Qed.

Lemma filter_all {A : Type} (P : A -> Prop) `{!forall x, Decision (P x)}
    (l : list A) :
  Forall P l -> filter P l = l.
Proof.
  induction 1 as [|x l Hx Hl IH]; [reflexivity|].
  now rewrite filter_cons_True, IH.
Qed.

Lemma NoDup_order : NoDup order.
Proof. compute_done. Qed.

Lemma elem_of_leftover_set (keys : list string) (k : string) :
  k ∈ leftover_set keys <-> k ∈ keys /\ k ≠ "inference_time" /\ k ∉ order.
Proof.
  unfold leftover_set.
  rewrite elem_of_difference, !elem_of_list_to_set, not_elem_of_cons.
  tauto.
Qed.

Section Listing.
Variable tuple : gset string -> list string.
Hypothesis tuple_listing : listing tuple.

Lemma elem_of_tuple (s : gset string) (k : string) : k ∈ tuple s <-> k ∈ s.
Proof. now rewrite (tuple_listing s), elem_of_elements. Qed.

Lemma NoDup_tuple (s : gset string) : NoDup (tuple s).
Proof. rewrite (tuple_listing s). apply NoDup_elements. Qed.

Lemma NoDup_order_leftovers (keys : list string) :
  NoDup (order ++ tuple (leftover_set keys)).
Proof.
  apply NoDup_app. split; [apply NoDup_order|]. split; [|apply NoDup_tuple].
  intros k Hk. rewrite elem_of_tuple, elem_of_leftover_set. tauto.
Qed.

(** The dictionary built from [d]: the canonical entries of [d] in the
    canonical order, then the leftover entries as [tuple] lists them *)
Lemma select_order_leftovers (d : Dict.t PyObj) :
  select (order ++ tuple (leftover_set (Dict.keys d))) d
  = (omap (entry_of d) order
     ++ omap (entry_of d) (tuple (leftover_set (Dict.keys d))))%list.
Proof.
  rewrite select_eq by apply NoDup_order_leftovers.
  fold (entry_of d). apply omap_app.
Qed.

Lemma keys_leftovers (d : Dict.t PyObj) :
  Dict.keys (omap (entry_of d) (tuple (leftover_set (Dict.keys d))))
  = tuple (leftover_set (Dict.keys d)).
Proof.
  rewrite keys_omap_entry. apply filter_all, Forall_forall.
  intros k Hk. apply elem_of_tuple, elem_of_leftover_set in Hk. tauto.
Qed.

(** Keys and lookups of the dictionary the function returns *)
Lemma keys_select (d : Dict.t PyObj) :
  Dict.keys (select (order ++ tuple (leftover_set (Dict.keys d))) d)
  = (filter (.∈ Dict.keys d) order ++ tuple (leftover_set (Dict.keys d)))%list.
Proof.
  rewrite select_order_leftovers. unfold Dict.keys at 1. rewrite fmap_app.
  fold (Dict.keys (omap (entry_of d) order)).
  fold (Dict.keys (omap (entry_of d) (tuple (leftover_set (Dict.keys d))))).
  now rewrite keys_leftovers, keys_omap_entry.
Qed.

Lemma get_select (d : Dict.t PyObj) (k : string) :
  Dict.get k (select (order ++ tuple (leftover_set (Dict.keys d))) d)
  = if decide (k = "inference_time") then None else Dict.get k d.
Proof.
  rewrite select_eq by apply NoDup_order_leftovers. fold (entry_of d).
  rewrite get_omap_entry.
  destruct (decide (k ∈ (order ++ tuple (leftover_set (Dict.keys d)))%list))
    as [Hin|Hin];
    rewrite elem_of_app, elem_of_tuple, elem_of_leftover_set in Hin.
  - rewrite decide_False; [reflexivity|]. intros ->.
    destruct Hin as [Hin|Hin]; [|tauto]. revert Hin. compute_done.
  - destruct (decide (k = "inference_time")); [reflexivity|].
    symmetry. apply get_None. intros Hk. apply Hin.
    destruct (decide (k ∈ order)); tauto.
Qed.

End Listing.

(** C2. On every input mapping the function returns a mapping whose keys
    are the keys of the input except [inference_time], each with the value
    it has in the input. The canonical keys that the input has come first,
    in the order eval_metric, model_size, flops, total_params,
    memory_footprint, execution_time, with nothing in the place of an
    absent one; every other key comes after them. The result never has
    the key [inference_time], and the empty mapping gives the empty
    mapping. *)
Theorem default_display_filter_function_ordered
    (tuple : gset string -> list string) (σ : store) (a : loc)
    (d : Dict.t PyObj)
    (Htuple : listing tuple) (Ha : σ !! a = Some d) :
  exists (r : loc) (σ' : store) (d' : Dict.t PyObj),
    default_display_filter_function tuple a σ = Ok (r, σ')
    /\ σ' !! r = Some d'
    /\ (forall k, k ∈ Dict.keys d' <-> (k ∈ Dict.keys d /\ k ≠ "inference_time"))
    /\ (forall k, Dict.get k d'
                  = if decide (k = "inference_time") then None else Dict.get k d)
    /\ Dict.wf d'
    /\ (exists leftovers,
          Dict.keys d' = (filter (.∈ Dict.keys d) order ++ leftovers)%list
          /\ Forall (.∉ order) leftovers)
    /\ ("inference_time" ∉ Dict.keys d')
    /\ (d = [] -> d' = []).
Proof.
  pose proof (get_select tuple Htuple d) as Hget.
  pose proof (keys_select tuple Htuple d) as Hkeys.
  set (d' := select (order ++ tuple (leftover_set (Dict.keys d))) d) in *.
  assert (Hiff : forall k, k ∈ Dict.keys d' <-> k ∈ Dict.keys d /\ k ≠ "inference_time").
  { intros k. rewrite <- !get_Some, Hget.
    destruct (decide (k = "inference_time")) as [->|Hne].
    - split; [intros [? ?]; discriminate | tauto].
    - tauto. }
  exists (fresh (dom σ)), (<[fresh (dom σ) := d']> σ), d'.
  split; [now apply default_display_filter_function_run|].
  split; [apply lookup_insert_eq|].
  split; [exact Hiff|]. split; [exact Hget|].
  split; [|split; [|split]].
  - unfold Dict.wf. rewrite Hkeys. apply NoDup_app. split; [|split].
    + apply NoDup_filter, NoDup_order.
    + intros k Hk. apply list_elem_of_filter in Hk as [_ Hk].
      rewrite (elem_of_tuple tuple Htuple), elem_of_leftover_set. tauto.
    + now apply NoDup_tuple.
  - eexists. split; [exact Hkeys|]. apply Forall_forall. intros k Hk.
    apply (elem_of_tuple tuple Htuple), elem_of_leftover_set in Hk. tauto.
  - rewrite Hiff. tauto.
  - intros ->. destruct d' as [|[k v] d']; [reflexivity|].
    exfalso. destruct (Hiff k) as [H _].
    destruct H as [H _]; [left | now apply elem_of_nil in H].
Qed.

Lemma default_display_filter_function_ordered_witness :
  exists (r : loc) (σ' : store),
    default_display_filter_function elements 1%positive
      {[ 1%positive := [("custom_x", PyNone); ("inference_time", PyNone);
                        ("flops", PyNone); ("eval_metric", PyNone)] ]}
    = Ok (r, σ')
    /\ Dict.keys <$> σ' !! r = Some ["eval_metric"; "flops"; "custom_x"].
Proof.
  destruct (default_display_filter_function_ordered elements
              {[ 1%positive := [("custom_x", PyNone); ("inference_time", PyNone);
                                ("flops", PyNone); ("eval_metric", PyNone)] ]}
              1%positive
              [("custom_x", PyNone); ("inference_time", PyNone);
               ("flops", PyNone); ("eval_metric", PyNone)])
    as (r & σ' & d' & Hrun & Hr & _).
  - intros s. reflexivity.
  - reflexivity.
  - exists r, σ'. split; [exact Hrun|].
    vm_compute in Hrun. injection Hrun as <- <-. reflexivity.
Defined.

(** C9. The function returns a newly constructed mapping and leaves its
    input as it was: the reference it returns was not allocated before
    the call and differs from the argument, and after the call the input
    mapping has the same entries in the same order, [inference_time]
    included; no other object is written either. *)
Theorem default_display_filter_function_frame
    (tuple : gset string -> list string) (σ : store) (a : loc)
    (d : Dict.t PyObj)
    (Ha : σ !! a = Some d) :
  exists (r : loc) (σ' : store),
    default_display_filter_function tuple a σ = Ok (r, σ')
    /\ σ !! r = None
    /\ r ≠ a
    /\ is_Some (σ' !! r)
    /\ σ' !! a = Some d
    /\ (forall l, l ≠ r -> σ' !! l = σ !! l).
Proof.
  assert (Hfresh : σ !! fresh (dom σ) = None).
  { apply not_elem_of_dom, is_fresh. }
  assert (Hne : fresh (dom σ) ≠ a) by congruence.
  eexists _, _.
  split; [exact (default_display_filter_function_run tuple σ a d Ha)|].
  split; [exact Hfresh|]. split; [exact Hne|].
  split; [rewrite lookup_insert_eq; eauto|].
  split; [rewrite lookup_insert_ne by exact Hne; exact Ha|].
  intros l Hl. rewrite lookup_insert_ne by congruence. reflexivity.
Qed.

Lemma default_display_filter_function_frame_witness :
  exists (r : loc) (σ' : store),
    default_display_filter_function elements 1%positive
      {[ 1%positive := [("inference_time", PyNone); ("flops", PyNone)] ]}
    = Ok (r, σ')
    /\ r ≠ 1%positive
    /\ σ' !! 1%positive = Some [("inference_time", PyNone); ("flops", PyNone)].
Proof.
  destruct (default_display_filter_function_frame elements
              {[ 1%positive := [("inference_time", PyNone); ("flops", PyNone)] ]}
              1%positive [("inference_time", PyNone); ("flops", PyNone)])
    as (r & σ' & Hrun & _ & Hne & _ & Hin & _).
  - reflexivity.
  - now exists r, σ'.
Defined.

(** The leftover keys of the output are the leftover keys of the input *)
Lemma leftover_set_select (tuple : gset string -> list string) (d : Dict.t PyObj) :
  listing tuple ->
  leftover_set (Dict.keys (select (order ++ tuple (leftover_set (Dict.keys d))) d))
  = leftover_set (Dict.keys d).
Proof.
  intros Htuple. apply set_eq. intros k.
  rewrite !elem_of_leftover_set, <- !get_Some, (get_select tuple Htuple).
  destruct (decide (k = "inference_time")); [|tauto].
  split; [intros [[? ?] _]; discriminate | tauto].
Qed.

(** C10, as amended. Applying the function to its own output returns a
    mapping with the same keys and the same values, whose canonical
    entries are the same and in the same order and whose other entries
    are those of the first output in the order in which the second call
    lists the set of leftover keys: the two mappings are equal up to the
    order of the entries that follow the canonical ones, and they are
    equal when both calls list that set in the same order, as they must
    when it has at most one key. *)
Theorem default_display_filter_function_idempotent_up_to_leftovers
    (tuple1 tuple2 : gset string -> list string) (σ : store) (a : loc)
    (d : Dict.t PyObj)
    (Htuple1 : listing tuple1) (Htuple2 : listing tuple2)
    (Ha : σ !! a = Some d) :
  exists (r1 r2 : loc) (σ1 σ2 : store) (d1 d2 : Dict.t PyObj),
    default_display_filter_function tuple1 a σ = Ok (r1, σ1)
    /\ default_display_filter_function tuple2 r1 σ1 = Ok (r2, σ2)
    /\ σ1 !! r1 = Some d1 /\ σ2 !! r2 = Some d2
    /\ (forall k, Dict.get k d2 = Dict.get k d1)
    /\ (exists canonical l1 l2,
          d1 = (canonical ++ l1)%list /\ d2 = (canonical ++ l2)%list
          /\ l1 ≡ₚ l2
          /\ Dict.keys canonical = filter (.∈ Dict.keys d) order)
    /\ (tuple2 (leftover_set (Dict.keys d1)) = tuple1 (leftover_set (Dict.keys d))
        -> d2 = d1)
    /\ (size (leftover_set (Dict.keys d)) <= 1 -> d2 = d1)%nat.
Proof.
  set (t1 := tuple1 (leftover_set (Dict.keys d))).
  set (d1 := select (order ++ t1) d).
  set (σ1 := <[fresh (dom σ) := d1]> σ).
  assert (H1 : σ1 !! fresh (dom σ) = Some d1) by apply lookup_insert_eq.
  set (t2 := tuple2 (leftover_set (Dict.keys d1))).
  set (d2 := select (order ++ t2) d1).
  exists (fresh (dom σ)), (fresh (dom σ1)), σ1, (<[fresh (dom σ1) := d2]> σ1), d1, d2.
  split; [exact (default_display_filter_function_run tuple1 σ a d Ha)|].
  split; [exact (default_display_filter_function_run tuple2 σ1 _ d1 H1)|].
  split; [exact H1|]. split; [apply lookup_insert_eq|].
  assert (Hset : leftover_set (Dict.keys d1) = leftover_set (Dict.keys d))
    by exact (leftover_set_select tuple1 d Htuple1).
  assert (Hperm : t2 ≡ₚ t1).
  { subst t1 t2. now rewrite Hset, (Htuple2 _), (Htuple1 _). }
  assert (Hget1 : forall k, Dict.get k d1
                   = if decide (k = "inference_time") then None else Dict.get k d)
    by exact (get_select tuple1 Htuple1 d).
  assert (Hget2 : forall k, Dict.get k d2
                   = if decide (k = "inference_time") then None else Dict.get k d1)
    by exact (get_select tuple2 Htuple2 d1).
  assert (Hcanon : omap (entry_of d1) order = omap (entry_of d) order).
  { apply omap_entry_ext. intros k Hk. rewrite Hget1.
    rewrite decide_False; [reflexivity|]. intros ->. revert Hk. compute_done. }
  assert (Hleft : omap (entry_of d1) t2 = omap (entry_of d) t2).
  { apply omap_entry_ext. intros k Hk. rewrite Hget1.
    rewrite decide_False; [reflexivity|]. intros ->.
    apply (elem_of_tuple tuple2 Htuple2), elem_of_leftover_set in Hk. tauto. }
  assert (Hd1 : d1 = (omap (entry_of d) order ++ omap (entry_of d) t1)%list)
    by exact (select_order_leftovers tuple1 Htuple1 d).
  assert (Hd2 : d2 = (omap (entry_of d) order ++ omap (entry_of d) t2)%list).
  { unfold d2, t2. rewrite (select_order_leftovers tuple2 Htuple2 d1).
    fold t2. now rewrite Hcanon, Hleft. }
  split; [|split; [|split]].
  - intros k. rewrite Hget2, Hget1. now destruct (decide _).
  - exists (omap (entry_of d) order), (omap (entry_of d) t1), (omap (entry_of d) t2).
    split; [exact Hd1|]. split; [exact Hd2|].
    split; [now rewrite Hperm | apply keys_omap_entry].
  - intros Heq. fold t2 t1 in Heq. rewrite Hd1, Hd2. now rewrite Heq.
  - intros Hsize. rewrite Hd1, Hd2. f_equal. f_equal.
    assert (Hlen : (length t1 <= 1)%nat).
    { unfold t1. now rewrite (Htuple1 _). }
    destruct t1 as [|k1 [|k1' t1']]; simpl in Hlen; [| |lia].
    + now apply Permutation_nil_r in Hperm.
    + now apply Permutation_singleton_r in Hperm.
Qed.

Lemma default_display_filter_function_idempotent_up_to_leftovers_witness :
  exists (r1 r2 : loc) (σ1 σ2 : store),
    default_display_filter_function elements 1%positive
      {[ 1%positive := [("k48", PyNone); ("model_size", PyNone)] ]} = Ok (r1, σ1)
    /\ default_display_filter_function elements r1 σ1 = Ok (r2, σ2)
    /\ σ2 !! r2 = σ1 !! r1.
Proof.
  destruct (default_display_filter_function_idempotent_up_to_leftovers
              elements elements
              {[ 1%positive := [("k48", PyNone); ("model_size", PyNone)] ]}
              1%positive [("k48", PyNone); ("model_size", PyNone)])
    as (r1 & r2 & σ1 & σ2 & d1 & d2 & Hrun1 & Hrun2 & H1 & H2 & _ & _ & Heq & _).
  - intros s. reflexivity.
  - intros s. reflexivity.
  - reflexivity.
  - exists r1, r2, σ1, σ2. split; [exact Hrun1|]. split; [exact Hrun2|].
    rewrite H1, H2. f_equal. apply Heq.
    vm_compute in Hrun1. injection Hrun1 as <- <-.
    vm_compute in H1. injection H1 as <-. reflexivity.
Defined.

Lemma default_display_filter_function_not_idempotent :
  exists (tuple1 tuple2 : gset string -> list string) (r1 r2 : loc)
         (σ1 σ2 : store),
    listing tuple1 /\ listing tuple2
    /\ default_display_filter_function tuple1 1%positive
         {[ 1%positive := [("k48", PyNone); ("k107", PyNone);
                           ("model_size", PyNone); ("flops", PyNone)] ]}
       = Ok (r1, σ1)
    /\ default_display_filter_function tuple2 r1 σ1 = Ok (r2, σ2)
    /\ Dict.keys <$> σ1 !! r1 = Some ["model_size"; "flops"; "k48"; "k107"]
    /\ Dict.keys <$> σ2 !! r2 = Some ["model_size"; "flops"; "k107"; "k48"]
    /\ σ2 !! r2 ≠ σ1 !! r1.
Proof.
  exists (fun s => reverse (elements s)), elements.
  eexists _, _, _, _.
  split; [intros s; apply reverse_Permutation|].
  split; [intros s; reflexivity|].
  split; [vm_compute; reflexivity|].
  split; [vm_compute; reflexivity|].
  split; [vm_compute; reflexivity|].
  split; [vm_compute; reflexivity|].
  vm_compute. discriminate.
Qed.

(** ** The two-model table *)

Section TwoModelsFacts.
Variable Comparative_of_str : string -> option Comparative.
Variable compare : Comparative -> Value -> Value -> result (option Number).

#[local] Abbreviation enhancement :=
  (enhancement Comparative_of_str compare).
#[local] Abbreviation two_models_row :=
  (two_models_row Comparative_of_str compare).

Lemma units_mismatch_test (units_1 units_2 : string) :
  negb (String.eqb units_1 "") && negb (String.eqb units_2 "")
  && negb (String.eqb units_1 units_2) = true
  <-> units_1 ≠ "" /\ units_2 ≠ "" /\ units_1 ≠ units_2.
Proof.
  rewrite !andb_true_iff, !negb_true_iff, !String.eqb_neq. tauto.
Qed.

Lemma enhancement_mismatch comp value_1 value_2 units_1 units_2 :
  units_1 ≠ "" -> units_2 ≠ "" -> units_1 ≠ units_2 ->
  enhancement comp value_1 value_2 units_1 units_2 = Ok "<Unsupported units>".
Proof.
  intros H1 H2 H12. unfold Formatter.enhancement.
  now rewrite (proj2 (units_mismatch_test units_1 units_2)).
Qed.

(** Without a mismatch the cell is decided by the attempt to compare *)
Lemma enhancement_compatible comp value_1 value_2 units_1 units_2 :
  units_1 = "" \/ units_2 = "" \/ units_1 = units_2 ->
  enhancement comp value_1 value_2 units_1 units_2
  = match mode_of Comparative_of_str comp with
    | None => Ok "<Error Comparing>"
    | Some c =>
        match compare c value_1 value_2 with
        | Raise ZeroDivisionError => Ok "INF"
        | Raise ValueError => Ok "<Error Comparing>"
        | Raise e => Raise e
        | Ok None => Ok "---"
        | Ok (Some rval) =>
            s ← Num.format_f 0 2 rval;
            Ok (s ++ if decide (c = DIFF) then "" else "x")
        end
    end.
Proof.
  intros Hu. unfold Formatter.enhancement.
  destruct (negb (String.eqb units_1 "") && negb (String.eqb units_2 "")
            && negb (String.eqb units_1 units_2)) eqn:E.
  { apply units_mismatch_test in E. tauto. }
  destruct comp as [[c|raw]|]; cbn [mode_of mbind result_bind].
  - now destruct (compare c value_1 value_2) as [[r|]|[]].
  - unfold Comparative_call. destruct (Comparative_of_str raw) as [c|]; [|reflexivity].
    cbn [mbind result_bind].
    now destruct (compare c value_1 value_2) as [[r|]|[]].
  - now destruct (compare NONE value_1 value_2) as [[r|]|[]].
Qed.

(** A row of the table: the adapted entries, the Enhancement cell, the
    two value cells *)
Lemma two_models_row_line (status_dict_2 : Dict.t PyObj) (sk : string)
    (sv sv2 : PyObj) (s ds : string)
    text value_1 units_1 comp desc text_2 value_2 units_2 comp_2 desc_2
    val cell_1 cell_2 :
  Dict.get sk status_dict_2 = Some sv2 ->
  parse_metric sv = Ok (text, value_1, units_1, comp, desc) ->
  parse_metric sv2 = Ok (text_2, value_2, units_2, comp_2, desc_2) ->
  enhancement comp value_1 value_2 units_1 units_2 = Ok val ->
  format_value 25 4 value_1 = Ok cell_1 ->
  format_value 25 4 value_2 = Ok cell_2 ->
  two_models_row status_dict_2 40 25 25 25 (s, ds) (sk, sv)
  = Ok (s ++ two_models_line (text ++ " (" ++ units_1 ++ ")") val cell_1 cell_2,
        ds ++ note_line text desc).
Proof.
  intros Hget Hp1 Hp2 Hval Hc1 Hc2. unfold Formatter.two_models_row.
  unfold Dict.contains, Dict.getitem. rewrite Hget.
  assert (Hsv : isinstance_Metric sv = true) by (destruct sv; try discriminate; reflexivity).
  rewrite Hsv. cbn [andb mbind result_bind]. rewrite Hp1.
  cbn [mbind result_bind]. rewrite Hp2. cbn [mbind result_bind].
  rewrite Hval. cbn [mbind result_bind]. rewrite Hc1. cbn [mbind result_bind].
  rewrite Hc2. cbn [mbind result_bind].
  unfold two_models_line, note_line. now rewrite !append_assoc.
Qed.

End TwoModelsFacts.

(** *** With the comparison of the specification *)

Lemma truediv_by_zero (b a : Number) :
  is_zero_number a = true -> returns (to_float b) ->
  Num.truediv b a = Raise ZeroDivisionError.
Proof.
  intros Ha [f Hf]. destruct a as [za|fa], b as [zb|fb]; cbn in Ha.
  - unfold truediv. now rewrite Ha.
  - apply Z.eqb_eq in Ha. subst za. reflexivity.
  - unfold truediv. rewrite Hf. cbn. now rewrite Ha.
  - unfold truediv. cbn. now rewrite Ha.
Qed.

(** On two floats the attempt to compare never leaves the renderer *)
Lemma enhancement_float_returns
    (Comparative_of_str : string -> option Comparative)
    comp value_1 value_2 units_1 units_2 :
  is_float value_1 -> is_float value_2 ->
  returns (enhancement Comparative_of_str compare_status_values
             comp value_1 value_2 units_1 units_2).
Proof.
  intros [x ->] [y ->].
  destruct (decide (units_1 ≠ "" /\ units_2 ≠ "" /\ units_1 ≠ units_2)) as [H|H].
  - eexists. apply enhancement_mismatch; tauto.
  - rewrite enhancement_compatible.
    2:{ destruct (decide (units_1 = "")), (decide (units_2 = "")),
          (decide (units_1 = units_2)); tauto. }
    destruct (mode_of Comparative_of_str comp) as [[| |]|]; cbn.
    + destruct (is_zero x); cbn; now eexists.
    + now eexists.
    + now eexists.
    + now eexists.
Qed.


(** C3. In a row whose adapted units do not mismatch, the Enhancement
    cell is [---] when the comparison result is [None], which is the mode
    [NONE]; [INF] when the comparison raises [ZeroDivisionError], which is
    the mode [RATIO] with a zero denominator, the value of the first
    profile; [<Error Comparing>] when the tag is a string that names no
    member of [Comparative]; and otherwise the result of the comparison
    with two decimals, followed by [x] exactly when the mode is not
    [DIFF]. The cell is right-aligned in the second column of the row.
    With the values 10 and 5 and the mode [RATIO] the cell reads [0.50x]
    and the value cells read [10.0000] and [5.0000]. The first six parts
    hold for whatever [compare_status_values] does, the last four for the
    comparison of the specification. *)
Theorem enhancement_cell
    (Comparative_of_str : string -> option Comparative)
    (compare : Comparative -> Value -> Value -> result (option Number))
    (comp : option Tag) (value_1 value_2 : Value) (units_1 units_2 : string)
    (Hunits : units_1 = "" \/ units_2 = "" \/ units_1 = units_2) :
  let mode := mode_of Comparative_of_str comp in
  let val := enhancement Comparative_of_str compare
               comp value_1 value_2 units_1 units_2 in
  let spec_val := enhancement Comparative_of_str compare_status_values
                    comp value_1 value_2 units_1 units_2 in
  (mode = None -> val = Ok "<Error Comparing>")
  /\ (forall c, mode = Some c -> compare c value_1 value_2 = Ok None ->
                val = Ok "---")
  /\ (forall c, mode = Some c ->
                compare c value_1 value_2 = Raise ZeroDivisionError ->
                val = Ok "INF")
  /\ (forall c, mode = Some c ->
                compare c value_1 value_2 = Raise ValueError ->
                val = Ok "<Error Comparing>")
  /\ (forall c rval f,
        mode = Some c -> compare c value_1 value_2 = Ok (Some rval) ->
        to_float rval = Ok f ->
        val = Ok (format_float 2 f ++ if decide (c = DIFF) then "" else "x"))
  /\ (forall status_dict_2 sk sv sv2 s ds text desc text_2 comp_2 desc_2
             cell cell_1 cell_2,
        Dict.get sk status_dict_2 = Some sv2 ->
        parse_metric sv = Ok (text, value_1, units_1, comp, desc) ->
        parse_metric sv2 = Ok (text_2, value_2, units_2, comp_2, desc_2) ->
        val = Ok cell ->
        format_value 25 4 value_1 = Ok cell_1 ->
        format_value 25 4 value_2 = Ok cell_2 ->
        two_models_row Comparative_of_str compare status_dict_2 40 25 25 25
          (s, ds) (sk, sv)
        = Ok (s ++ "|" ++ Str.rjust 40 (text ++ " (" ++ units_1 ++ ")") ++ " | "
                ++ Str.rjust 25 cell ++ "| " ++ cell_1 ++ "| " ++ cell_2
                ++ "|" ++ nl,
              ds ++ note_line text desc))
  /\ (mode = Some NONE -> spec_val = Ok "---")
  /\ (forall a b,
        mode = Some RATIO ->
        value_1 = Computed a -> value_2 = Computed b ->
        is_zero_number a = true -> returns (to_float b) ->
        spec_val = Ok "INF")
  /\ (is_float value_1 -> is_float value_2 -> returns spec_val)
  /\ (forall s ds,
        two_models_row Comparative_of_str compare_status_values
          [("model_size", PyMetric model_size_5)] 40 25 25 25
          (s, ds) ("model_size", PyMetric model_size_10)
        = Ok (s ++ two_models_line "Model Size (MB)" "0.50x"
                     (Str.rjust 25 "10.0000") (Str.rjust 25 "5.0000"),
              ds ++ note_line "Model Size" "size of the model")).
Proof.
  intros mode val spec_val. subst mode val spec_val.
  rewrite !(enhancement_compatible Comparative_of_str _ _ _ _ _ _ Hunits).
  split; [|split; [|split; [|split; [|split; [|split; [|split; [|split; [|split]]]]]]]].
  - intros ->. reflexivity.
  - intros c -> ->. reflexivity.
  - intros c -> ->. reflexivity.
  - intros c -> ->. reflexivity.
  - intros c rval f -> -> Hf. unfold format_f. rewrite Hf. cbn.
    unfold Str.rjust. rewrite repeat_nonpos by (unfold Str.len; lia).
    reflexivity.
  - intros sd2 sk sv sv2 s ds text desc text_2 comp_2 desc_2 cell cell_1 cell_2
           Hget Hp1 Hp2 Hval Hc1 Hc2.
    rewrite <- (enhancement_compatible Comparative_of_str _ _ _ _ _ _ Hunits) in Hval.
    rewrite (two_models_row_line Comparative_of_str compare
               _ _ _ _ _ _ _ _ _ _ _ _ _ _ _ _ _ _ _
               Hget Hp1 Hp2 Hval Hc1 Hc2).
    reflexivity.
  - intros ->. reflexivity.
  - intros a b -> -> -> Ha Hb. cbn.
    now rewrite (truediv_by_zero b a Ha Hb).
  - intros H1 H2.
    rewrite <- (enhancement_compatible Comparative_of_str _ _ _ _ _ _ Hunits).
    now apply enhancement_float_returns.
  - intros s ds.
    apply (two_models_row_line Comparative_of_str compare_status_values
             _ _ _ (PyMetric model_size_5)
             _ _ "Model Size" (Computed (PyInt 10)) "MB" (Some (Member RATIO))
             "size of the model" "Model Size" (Computed (PyInt 5)) "MB"
             (Some (Member RATIO)) "size of the model");
      reflexivity.
Qed.

Lemma enhancement_cell_witness :
  enhancement (fun _ => None) compare_status_values (Some (Member RATIO))
    (Computed (PyInt 10)) (Computed (PyInt 5)) "MB" "MB" = Ok "0.50x".
Proof.
  destruct (enhancement_cell (fun _ => None) compare_status_values
              (Some (Member RATIO))
              (Computed (PyInt 10)) (Computed (PyInt 5)) "MB" "MB"
              (or_intror (or_intror eq_refl)))
    as (_ & _ & _ & _ & H & _).
  erewrite H; cycle 1.
  - reflexivity.
  - vm_compute. reflexivity.
  - vm_compute. reflexivity.
  - reflexivity.
Defined.

(** C4. When the adapted units of both profiles are non-empty and
    differ, the Enhancement cell of the row is the token
    [<Unsupported units>], whatever the tag and the values are: nothing is
    compared. Both values are numbers then, and each is rendered with four
    decimals in its value cell. *)
Theorem unsupported_units_row
    (Comparative_of_str : string -> option Comparative)
    (compare : Comparative -> Value -> Value -> result (option Number))
    (status_dict_2 : Dict.t PyObj) (sk : string) (sv sv2 : PyObj)
    (s ds text desc text_2 desc_2 units_1 units_2 : string)
    (value_1 value_2 : Value) (comp comp_2 : option Tag)
    (Hget : Dict.get sk status_dict_2 = Some sv2)
    (Hsv : parse_metric sv = Ok (text, value_1, units_1, comp, desc))
    (Hsv2 : parse_metric sv2 = Ok (text_2, value_2, units_2, comp_2, desc_2))
    (Hunits_1 : units_1 ≠ "") (Hunits_2 : units_2 ≠ "")
    (Hdiffer : units_1 ≠ units_2) :
  (forall comp' value_1' value_2',
     enhancement Comparative_of_str compare comp' value_1' value_2'
       units_1 units_2
     = Ok "<Unsupported units>")
  /\ exists v1 v2,
       value_1 = Computed v1 /\ value_2 = Computed v2
       /\ forall f1 f2,
            to_float v1 = Ok f1 -> to_float v2 = Ok f2 ->
            two_models_row Comparative_of_str compare status_dict_2
              40 25 25 25 (s, ds) (sk, sv)
            = Ok (s ++ two_models_line (text ++ " (" ++ units_1 ++ ")")
                         "<Unsupported units>"
                         (Str.rjust 25 (format_float 4 f1))
                         (Str.rjust 25 (format_float 4 f2)),
                  ds ++ note_line text desc).
Proof.
  split.
  { intros comp' v1' v2'. now apply enhancement_mismatch. }
  assert (H1 : exists v1, value_1 = Computed v1).
  { destruct sv as [|m| |]; try discriminate. cbn in Hsv.
    destruct (value m) as [v|]; injection Hsv as <- <- <- <- <-;
      [now exists v | congruence]. }
  assert (H2 : exists v2, value_2 = Computed v2).
  { destruct sv2 as [|m| |]; try discriminate. cbn in Hsv2.
    destruct (value m) as [v|]; injection Hsv2 as <- <- <- <- <-;
      [now exists v | congruence]. }
  destruct H1 as [v1 ->], H2 as [v2 ->]. exists v1, v2.
  split; [reflexivity|]. split; [reflexivity|]. intros f1 f2 Hf1 Hf2.
  apply (two_models_row_line Comparative_of_str compare
           _ _ _ _ _ _ _ _ _ _ _ _ _ _ _ _ _ _ _ Hget Hsv Hsv2).
  - now apply enhancement_mismatch.
  - cbn. unfold format_f. now rewrite Hf1.
  - cbn. unfold format_f. now rewrite Hf2.
Qed.

Lemma unsupported_units_row_witness :
  two_models_row (fun _ => None) (fun _ _ _ => Raise ValueError)
    [("model_size",
      PyMetric {| friendly_name := "Model Size"; value := Some (PyInt 5);
                  get_units := Some "KB";
                  get_comparative := Some (Member RATIO);
                  description := "size of the model" |})]
    40 25 25 25 ("", "") ("model_size", PyMetric model_size_10)
  = Ok (two_models_line "Model Size (MB)" "<Unsupported units>"
          (Str.rjust 25 "10.0000") (Str.rjust 25 "5.0000"),
        note_line "Model Size" "size of the model").
Proof.
  destruct (unsupported_units_row (fun _ => None) (fun _ _ _ => Raise ValueError)
              [("model_size",
                PyMetric {| friendly_name := "Model Size"; value := Some (PyInt 5);
                            get_units := Some "KB";
                            get_comparative := Some (Member RATIO);
                            description := "size of the model" |})]
              "model_size" (PyMetric model_size_10) _ "" ""
              _ _ _ _ _ _ _ _ _ _ eq_refl eq_refl eq_refl)
    as (_ & v1 & v2 & Hv1 & Hv2 & Hrow); try discriminate.
  injection Hv1 as <-. injection Hv2 as <-.
  erewrite Hrow; cycle 1.
  - vm_compute. reflexivity.
  - vm_compute. reflexivity.
  - reflexivity.
Defined.

(** ** The comparative tags of the second profile *)

Lemma get_same_but_comparatives (d d' : Dict.t PyObj) (k : string) :
  same_but_comparatives d d' ->
  option_Forall2 same_but_comparative (Dict.get k d) (Dict.get k d').
Proof.
  induction 1 as [|[k1 o] [k2 o'] d d' [Hk Ho] _ IH]; [constructor|].
  simpl in *. subst k2. destruct (String.eqb k1 k); [now constructor | exact IH].
Qed.

Lemma str_add_same_but_comparative (s : string) (o o' : PyObj) :
  same_but_comparative o o' -> str_add s o = str_add s o'.
Proof. now destruct 1. Qed.

Lemma parse_metric_same_but_comparative (o o' : PyObj) :
  same_but_comparative o o' ->
  parsed_but_comparative o = parsed_but_comparative o'.
Proof.
  destruct 1 as [o|m c]; [reflexivity|].
  unfold parsed_but_comparative. cbn. now destruct (value m).
Qed.

Lemma for_each_ext {A S : Type} (f g : S -> A -> result S) (l : list A) (s : S) :
  (forall s x, f s x = g s x) -> for_each f l s = for_each g l s.
Proof.
  intros H. revert s. induction l as [|x l IH]; intros s; [reflexivity|].
  cbn [for_each]. rewrite H. destruct (g s x); cbn; [apply IH | reflexivity].
Qed.

Section SecondProfile.
Variable Comparative_of_str : string -> option Comparative.
Variable compare : Comparative -> Value -> Value -> result (option Number).
Variables status_dict_2 status_dict_2' : Dict.t PyObj.
Hypothesis Hsame : same_but_comparatives status_dict_2 status_dict_2'.

Lemma contains_same (k : string) :
  Dict.contains k status_dict_2 = Dict.contains k status_dict_2'.
Proof.
  unfold Dict.contains.
  now destruct (get_same_but_comparatives _ _ k Hsame).
Qed.

Lemma getitem_str_add_same {B : Type} (k s : string)
    (K K' : string -> result B) :
  (forall t, K t = K' t) ->
  (o ← Dict.getitem k status_dict_2; t ← str_add s o; K t)
  = (o ← Dict.getitem k status_dict_2'; t ← str_add s o; K' t).
Proof.
  intros HK. unfold Dict.getitem.
  destruct (get_same_but_comparatives _ _ k Hsame) as [o o' Ho|]; [|reflexivity].
  cbn [mbind result_bind]. rewrite (str_add_same_but_comparative s o o' Ho).
  destruct (str_add s o'); cbn [mbind result_bind]; [apply HK | reflexivity].
Qed.

Lemma two_models_row_same (c0 c1 c2 c3 : Z) (acc : string * string)
    (item : string * PyObj) :
  two_models_row Comparative_of_str compare status_dict_2 c0 c1 c2 c3 acc item
  = two_models_row Comparative_of_str compare status_dict_2' c0 c1 c2 c3 acc item.
Proof.
  destruct acc as [s ds], item as [sk sv]. unfold two_models_row.
  rewrite contains_same. unfold Dict.getitem.
  destruct (Dict.contains sk status_dict_2' && isinstance_Metric sv); [|reflexivity].
  destruct (get_same_but_comparatives _ _ sk Hsame) as [o o' Ho|]; [|reflexivity].
  cbn [mbind result_bind].
  destruct (parse_metric sv) as [[[[[text value_1] units_1] comp] desc]|e];
    [|reflexivity].
  cbn [mbind result_bind].
  pose proof (parse_metric_same_but_comparative o o' Ho) as Hp.
  unfold parsed_but_comparative in Hp.
  destruct (parse_metric o) as [[[[[t v] u] c] d]|e],
           (parse_metric o') as [[[[[t' v'] u'] c'] d']|e'];
    cbn in Hp; try discriminate; [|congruence].
  injection Hp as -> -> -> ->. reflexivity.
Qed.

End SecondProfile.

(** C8. The output of [make_two_models_summary_str] does not depend on
    the comparative tags of the metrics of [status_dict_2]: two second
    profiles that differ only in such tags give the same result, be it a
    table or an exception. *)
Theorem make_two_models_summary_str_ignores_second_comparative
    (Comparative_of_str : string -> option Comparative)
    (compare : Comparative -> Value -> Value -> result (option Number))
    (status_dict status_dict_2 status_dict_2' : Dict.t PyObj)
    (short_print : bool) (description_str summary_str : string)
    (Hsame : same_but_comparatives status_dict_2 status_dict_2') :
  make_two_models_summary_str Comparative_of_str compare
    status_dict status_dict_2 short_print description_str summary_str
  = make_two_models_summary_str Comparative_of_str compare
      status_dict status_dict_2' short_print description_str summary_str.
Proof.
  unfold make_two_models_summary_str.
  destruct (Dict.getitem "name" status_dict) as [name|e];
    cbn [mbind result_bind]; [|reflexivity].
  destruct (str_add "Value (" name) as [title_1|e];
    cbn [mbind result_bind]; [|reflexivity].
  apply (getitem_str_add_same _ _ Hsame). intros title_2.
  destruct (Dict.getitem "backend" status_dict) as [backend|e];
    cbn [mbind result_bind]; [|reflexivity].
  destruct (str_add "Backend: " backend) as [title_3|e];
    cbn [mbind result_bind]; [|reflexivity].
  apply (getitem_str_add_same _ _ Hsame). intros title_4.
  rewrite (for_each_ext _ _ _ _
             (two_models_row_same Comparative_of_str compare _ _ Hsame
                                  40 25 25 25)).
  reflexivity.
Qed.

Lemma make_two_models_summary_str_ignores_second_comparative_witness :
  make_two_models_summary_str (fun _ => None) compare_status_values
    [("name", PyStr "a"); ("backend", PyStr "x"); ("model_size", PyMetric model_size_10)]
    [("name", PyStr "b"); ("backend", PyStr "y"); ("model_size", PyMetric model_size_5)]
    true "" nl
  = make_two_models_summary_str (fun _ => None) compare_status_values
      [("name", PyStr "a"); ("backend", PyStr "x"); ("model_size", PyMetric model_size_10)]
      [("name", PyStr "b"); ("backend", PyStr "y");
       ("model_size", PyMetric (with_comparative (Some (Raw "bogus")) model_size_5))]
      true "" nl.
Proof.
  apply make_two_models_summary_str_ignores_second_comparative.
  repeat constructor.
Defined.

(** ** When the renderers return *)

Lemma for_each_returns {A S : Type} (body : S -> A -> result S) (l : list A) :
  (forall s x, x ∈ l -> returns (body s x)) ->
  forall s, returns (for_each body l s).
Proof.
  induction l as [|x l IH]; intros Hbody s; [now eexists|].
  cbn [for_each]. destruct (Hbody s x) as [s' ->]; [left|].
  cbn [mbind result_bind]. apply IH. intros s'' y Hy. apply Hbody. now right.
Qed.

Lemma parse_metric_float_or_absent (m : Metric) :
  float_or_absent m ->
  exists value units comp,
    parse_metric (PyMetric m)
    = Ok (friendly_name m, value, units, comp, description m)
    /\ ((Metrics.value m = None /\ value = NotComputedValue /\ units = ""
         /\ comp = Some (Member NONE))
        \/ (Metrics.value m <> None /\ is_float value)).
Proof.
  unfold parse_metric. intros [H|[f H]]; rewrite H.
  - eexists _, _, _. split; [reflexivity|]. now left.
  - eexists _, _, _. split; [reflexivity|]. right. split; [discriminate|].
    now exists f.
Qed.

Lemma format_value_returns (w : Z) (p : nat) (v : Value) :
  0 <= w <= 65536 -> v = NotComputedValue \/ is_float v -> returns (format_value w p v).
Proof.
  intros Hw [->|[f ->]].
  - eexists. now apply format_value_not_computed.
  - now eexists.
Qed.

(** The one-model table of a status with its two reserved strings is
    returned whenever every metric value is a float or is absent *)
Lemma make_one_model_summary_str_returns (status_dict : Dict.t PyObj)
    (short_print : bool) (description_str summary_str name backend : string) :
  Dict.get "name" status_dict = Some (PyStr name) ->
  Dict.get "backend" status_dict = Some (PyStr backend) ->
  (forall m, PyMetric m ∈ Dict.values status_dict -> float_or_absent m) ->
  returns (make_one_model_summary_str status_dict short_print
             description_str summary_str).
Proof.
  intros Hname Hbackend Hvalues.
  rewrite (make_one_model_frame _ _ _ _ _ _ Hname Hbackend).
  match goal with
  | |- context [for_each ?body ?l ?st] =>
      assert (Hloop : returns (for_each body l st))
  end.
  2:{ destruct Hloop as [[s' ds'] ->]. now eexists. }
  apply for_each_returns.
  intros [s ds] o Ho. unfold one_model_row.
  destruct o as [t|m|n|]; cbn [isinstance_Metric negb]; try now eexists.
  destruct (parse_metric_float_or_absent m (Hvalues m Ho))
    as (v & u & c & -> & Hv).
  cbn [mbind result_bind].
  destruct (format_value_returns 20 4 v) as [cell ->]; [lia | (destruct Hv as [(_ & -> & _)|[_ Hv]]; tauto) |].
  now eexists.
Qed.

(** The two-model table is returned whenever, under every key that gets
    a row, the second profile has a metric too, the values are floats or
    absent, and a value absent from the second profile is absent from the
    first as well *)
Lemma make_two_models_summary_str_returns
    (Comparative_of_str : string -> option Comparative)
    (status_dict status_dict_2 : Dict.t PyObj) (short_print : bool)
    (description_str summary_str name backend name_2 backend_2 : string) :
  Dict.get "name" status_dict = Some (PyStr name) ->
  Dict.get "backend" status_dict = Some (PyStr backend) ->
  Dict.get "name" status_dict_2 = Some (PyStr name_2) ->
  Dict.get "backend" status_dict_2 = Some (PyStr backend_2) ->
  (forall sk m o,
     (sk, PyMetric m) ∈ Dict.items status_dict ->
     Dict.get sk status_dict_2 = Some o ->
     exists m2, o = PyMetric m2 /\ float_or_absent m /\ float_or_absent m2
                /\ (value m2 = None -> value m = None)) ->
  returns (make_two_models_summary_str Comparative_of_str compare_status_values
             status_dict status_dict_2 short_print description_str summary_str).
Proof.
  intros Hname Hbackend Hname2 Hbackend2 Hrows.
  unfold make_two_models_summary_str, Dict.getitem.
  rewrite Hname, Hbackend, Hname2, Hbackend2. cbn [mbind result_bind str_add].
  match goal with
  | |- context [for_each ?body ?l ?st] =>
      assert (Hloop : returns (for_each body l st))
  end.
  2:{ destruct Hloop as [[s' ds'] ->]. cbn [mbind result_bind].
      destruct short_print; now eexists. }
  apply for_each_returns.
  intros [s ds] [sk sv] Hin. unfold two_models_row.
  destruct (Dict.contains sk status_dict_2 && isinstance_Metric sv) eqn:E;
    [|now eexists].
  apply andb_true_iff in E as [Hc Hm].
  destruct sv as [|m| |]; try discriminate.
  unfold Dict.contains, Dict.getitem in *.
  destruct (Dict.get sk status_dict_2) as [o|] eqn:Ho; [|discriminate].
  destruct (Hrows sk m o Hin Ho) as (m2 & -> & Hf1 & Hf2 & Habsent).
  cbn [mbind result_bind].
  destruct (parse_metric_float_or_absent m Hf1) as (v1 & u1 & c1 & -> & Hv1).
  destruct (parse_metric_float_or_absent m2 Hf2) as (v2 & u2 & c2 & -> & Hv2).
  cbn [mbind result_bind].
  assert (Hval : returns (enhancement Comparative_of_str compare_status_values
                            c1 v1 v2 u1 u2)).
  { destruct Hv1 as [(_ & -> & -> & ->)|[Hm1 Hv1]]; [now eexists|].
    destruct Hv2 as [(Hm2 & _)|[_ Hv2]]; [tauto|].
    now apply enhancement_float_returns. }
  destruct Hval as [val ->]. cbn [mbind result_bind].
  destruct (format_value_returns 25 4 v1) as [cell_1 ->];
    [lia | destruct Hv1 as [(_ & -> & _)|[_ Hv1]]; tauto |].
  cbn [mbind result_bind].
  destruct (format_value_returns 25 4 v2) as [cell_2 ->];
    [lia | destruct Hv2 as [(_ & -> & _)|[_ Hv2]]; tauto |].
  now eexists.
Qed.

(** ** Exceptions that leave the renderers *)

(** C1. The claim is that no numeric or comparison failure leaves the two
    renderers. The code lets two of them through. When the metric has a
    value in the first profile and none in the second, the comparison
    divides the [NotComputedValue] placeholder by a number: the
    [TypeError] is not among the exceptions that lines 166 to 169 catch.
    When a value is an integer beyond the range of a float, the
    presentation type [f] of the value cell raises [OverflowError], which
    nothing catches: the one-model table has this failure too. *)
Theorem make_summary_str_raises
    (Comparative_of_str : string -> option Comparative) :
  make_two_models_summary_str Comparative_of_str compare_status_values
    (status_of "baseline" (PyMetric (flops (Some (PyInt 10)))))
    (status_of "optimized" (PyMetric (flops None)))
    true "" nl
  = Raise TypeError
  /\ make_one_model_summary_str
       (status_of "baseline" (PyMetric (flops (Some (PyInt (10 ^ 400))))))
       true "" nl
     = Raise OverflowError.
Proof.
  split; vm_compute; reflexivity.
Qed.

(** C5. The claim is that a key of the first profile gets a row exactly
    when the second profile has it too and the first profile's entry is a
    [Metric], and that entries that are no [Metric] are passed over
    without an error. The code tests [isinstance(sv, Metric)] for the
    entry of the first profile only: an entry of the second profile that
    is no [Metric], under a key that gets a row, reaches [parse_metric]
    and raises [AttributeError]. *)
Theorem make_two_models_summary_str_second_entry_unchecked
    (Comparative_of_str : string -> option Comparative)
    (compare : Comparative -> Value -> Value -> result (option Number)) :
  make_two_models_summary_str Comparative_of_str compare
    (status_of "baseline" (PyMetric (flops (Some (PyInt 10)))))
    (status_of "optimized" (PyStr "n/a"))
    true "" nl
  = Raise AttributeError
  /\ returns (make_two_models_summary_str Comparative_of_str compare
                (status_of "baseline" (PyStr "n/a"))
                (status_of "optimized" (PyMetric (flops (Some (PyInt 10)))))
                true "" nl).
Proof.
  split; [vm_compute; reflexivity | eexists; vm_compute; reflexivity].
Qed.

(** * Further properties *)

(** ** The logger holder *)

Section LoggingFacts.
Import Logging.

Variable std_logger : Obj.

Lemma preserves_bind {A B} (m : ML A) (k : A -> ML B) :
  preserves m -> (forall a, preserves (k a)) -> preserves (m ≫= k).
Proof.
  intros Hm Hk s Hs. unfold mbind, ML_bind. specialize (Hm s Hs).
  destruct (m s) as [[a|e] s']; [now apply Hk | exact Hm].
Qed.

Lemma preserves_ret {A} (a : A) : preserves (mret a).
Proof. intros s Hs. exact Hs. Qed.

Lemma preserves_lift {A} (r : result A) : preserves (lift r).
Proof. intros s Hs. exact Hs. Qed.

Lemma preserves_read self : preserves (read_logger self).
Proof. intros s Hs. exact Hs. Qed.

Lemma preserves_write self o : preserves (write_logger self o).
Proof.
  intros s [H1 H2]. split; [exact H1|]. cbn. now rewrite length_insert.
Qed.

Lemma preserves_call a msg : preserves (call a msg).
Proof. intros s Hs. destruct a; exact Hs. Qed.

Lemma preserves_new : preserves __new__.
Proof. intros s [H1 H2]. unfold __new__. rewrite H1. now split. Qed.

Lemma preserves_logger self : preserves (logger std_logger self).
Proof.
  unfold logger. apply preserves_bind; [apply preserves_read|]. intros held.
  apply preserves_bind; [|intros _; apply preserves_read].
  destruct held; [apply preserves_ret|].
  apply preserves_bind; [apply preserves_write|]. intros _.
  apply preserves_bind; [apply preserves_read|]. intros held.
  apply preserves_bind; [apply preserves_lift|]. intros d.
  apply preserves_call.
Qed.

Lemma preserves_setter self o : preserves (logger_setter self o).
Proof.
  unfold logger_setter. apply preserves_bind; [apply preserves_write|]. intros _.
  apply preserves_bind; [apply preserves_read|]. intros held.
  apply preserves_bind; [apply preserves_lift|]. intros d.
  apply preserves_call.
Qed.

Lemma preserves_getattribute self item :
  preserves (__getattribute__ std_logger self item).
Proof.
  unfold __getattribute__. destruct (bool_decide _).
  - destruct (String.eqb item "logger").
    + apply preserves_bind; [apply preserves_logger | intros; apply preserves_ret].
    + apply preserves_bind; [apply preserves_read | intros; apply preserves_ret].
  - apply preserves_bind; [apply preserves_logger | intros; apply preserves_lift].
Qed.

Lemma preserves_run_op o : preserves (run_op std_logger o).
Proof.
  destruct o as [|name|l|item|item msg]; unfold run_op, getLogger, setLogger.
  - apply preserves_bind; [|intros; apply preserves_ret].
    unfold _LoggerHolder. apply preserves_bind; [apply preserves_new|]. intros self.
    apply preserves_bind; [apply preserves_write | intros; apply preserves_ret].
  - apply preserves_bind; intros; apply preserves_ret.
  - apply preserves_setter.
  - apply preserves_bind; [apply preserves_ret|]. intros h.
    apply preserves_bind; [apply preserves_getattribute | intros; apply preserves_ret].
  - apply preserves_bind; [apply preserves_ret|]. intros h.
    apply preserves_bind; [apply preserves_getattribute | intros; apply preserves_call].
Qed.

Lemma one_holder_exec ops s : one_holder s -> one_holder (exec std_logger ops s).
Proof.
  revert s. induction ops as [|o ops IH]; intros s Hs; [exact Hs|].
  cbn. apply IH. now apply preserves_run_op.
Qed.

Lemma one_holder_loaded : one_holder loaded.
Proof. now split. Qed.

(** X1. [_LoggerHolder] is a singleton. Whatever a user of the loaded
    module does with it, one instance exists, the one made at line 40:
    every later call [_LoggerHolder()] raises [TypeError] and changes
    nothing. *)
Theorem LoggerHolder_singleton (ops : list op) :
  let s := exec std_logger ops loaded in
  singleton s = true
  /\ length (instances s) = 1%nat
  /\ _LoggerHolder s = (Raise TypeError, s).
Proof.
  intros s. destruct (one_holder_exec ops loaded one_holder_loaded) as [H1 H2].
  fold s in H1, H2. split; [exact H1|]. split; [exact H2|].
  unfold _LoggerHolder, mbind, ML_bind, __new__. now rewrite H1.
Qed.

Lemma one_holder_instances s : one_holder s -> exists x, instances s = [x].
Proof.
  intros [_ H]. destruct (instances s) as [|x [|y l]]; try discriminate.
  now exists x.
Qed.

Lemma exec_instances ops : exists x, instances (exec std_logger ops loaded) = [x].
Proof. apply one_holder_instances, one_holder_exec, one_holder_loaded. Qed.

(** Reading the property in a state with one holder *)
Lemma logger_held s l :
  instances s = [Some l] ->
  logger std_logger _logger_holder s = (Ok (Some l), s).
Proof.
  intros H. unfold logger, mbind, ML_bind, read_logger, _logger_holder.
  rewrite H. cbn. rewrite H. reflexivity.
Qed.

Lemma logger_default s :
  "debug" ∈ obj_attrs std_logger -> instances s = [None] ->
  logger std_logger _logger_holder s
  = (Ok (Some std_logger),
     {| singleton := singleton s; instances := [Some std_logger];
        calls := (calls s ++ [(std_logger, "debug", defaulting)])%list |}).
Proof.
  intros Hd H. destruct s as [sg ins cs]. simpl in H. subst ins.
  unfold logger, mbind, ML_bind, read_logger, write_logger, _logger_holder, lift.
  cbn -[getattr]. unfold getattr. rewrite bool_decide_true by exact Hd.
  reflexivity.
Qed.

(** X2. The property [logger] never gives [None]. When the holder keeps
    no logger, the first read makes [logging.getLogger('deeplite_profiler')]
    the kept logger and sends it one debug message; when it keeps one,
    the read gives it and changes nothing. Either way a second read gives
    the same logger and changes nothing. *)
Theorem logger_lazy_default (ops : list op)
    (Hdebug : "debug" ∈ obj_attrs std_logger) :
  let s := exec std_logger ops loaded in
  exists l s',
    logger std_logger _logger_holder s = (Ok (Some l), s')
    /\ instances s' = [Some l]
    /\ (instances s = [None] ->
        l = std_logger
        /\ calls s' = (calls s ++ [(std_logger, "debug", defaulting)])%list)
    /\ (forall l0, instances s = [Some l0] -> l = l0 /\ s' = s)
    /\ logger std_logger _logger_holder s' = (Ok (Some l), s').
Proof.
  intros s. destruct (exec_instances ops) as [[l0|] Hs]; fold s in Hs.
  - exists l0, s. rewrite (logger_held s l0 Hs).
    split; [reflexivity|]. split; [exact Hs|].
    split; [rewrite Hs; discriminate|].
    split; [|reflexivity]. intros l1 H1. split; congruence.
  - eexists _, _. rewrite (logger_default s Hdebug Hs).
    split; [reflexivity|]. split; [reflexivity|].
    split; [now split|]. split; [rewrite Hs; discriminate|].
    now apply logger_held.
Qed.

Lemma setLogger_ok s x l :
  instances s = [x] -> "debug" ∈ obj_attrs l ->
  setLogger (Some l) s
  = (Ok tt, {| singleton := singleton s; instances := [Some l];
               calls := (calls s ++ [(l, "debug", set_to l)])%list |}).
Proof.
  intros H Hl. destruct s as [sg ins cs]. simpl in H. subst ins.
  unfold setLogger, logger_setter, mbind, ML_bind, read_logger, write_logger,
    _logger_holder, lift.
  cbn -[getattr]. unfold getattr. rewrite bool_decide_true by exact Hl.
  reflexivity.
Qed.

(** X3. [setLogger] with an object that has a [debug] method makes it the
    kept logger, whatever was kept before, and sends the one message
    [Profiler's logger set to ...] to the new logger, not to the old one.
    The property [logger] then gives the new logger without falling back
    to the default, and of two calls of [setLogger] the later one
    decides. *)
Theorem setLogger_replaces (ops : list op) (l l2 : Obj)
    (Hl : "debug" ∈ obj_attrs l) (Hl2 : "debug" ∈ obj_attrs l2) :
  let s := exec std_logger ops loaded in
  exists s',
    setLogger (Some l) s = (Ok tt, s')
    /\ instances s' = [Some l]
    /\ calls s' = (calls s ++ [(l, "debug", set_to l)])%list
    /\ logger std_logger _logger_holder s' = (Ok (Some l), s')
    /\ exists s'',
         setLogger (Some l2) s' = (Ok tt, s'')
         /\ logger std_logger _logger_holder s'' = (Ok (Some l2), s'').
Proof.
  intros s. destruct (exec_instances ops) as [x Hs]; fold s in Hs.
  eexists. rewrite (setLogger_ok s x l Hs Hl).
  split; [reflexivity|]. split; [reflexivity|]. split; [reflexivity|].
  split; [now apply logger_held|].
  eexists. erewrite setLogger_ok; [|reflexivity|exact Hl2].
  split; [reflexivity|]. now apply logger_held.
Qed.

(** X4. [setLogger] assigns before it uses the new logger. With [None],
    or with an object that has no [debug], it raises [AttributeError]
    and sends no message, but the holder already keeps what it was given:
    after [None] the next read falls back to the default logger and
    announces it again, after an object without [debug] the holder hands
    out that object. *)
Theorem setLogger_raises_after_assignment (ops : list op) (o : option Obj)
    (Ho : o = None \/ exists x, o = Some x /\ "debug" ∉ obj_attrs x) :
  let s := exec std_logger ops loaded in
  exists s',
    setLogger o s = (Raise AttributeError, s')
    /\ instances s' = [o]
    /\ calls s' = calls s
    /\ (forall x, o = Some x ->
          logger std_logger _logger_holder s' = (Ok (Some x), s'))
    /\ (o = None -> "debug" ∈ obj_attrs std_logger ->
        exists s'',
          logger std_logger _logger_holder s' = (Ok (Some std_logger), s'')
          /\ calls s'' = (calls s ++ [(std_logger, "debug", defaulting)])%list).
Proof.
  intros s. destruct (exec_instances ops) as [x0 Hs]; fold s in Hs.
  exists {| singleton := singleton s; instances := [o]; calls := calls s |}.
  split.
  { unfold setLogger, logger_setter, mbind, ML_bind, read_logger, write_logger,
      _logger_holder, lift.
    cbn. rewrite Hs. cbn. destruct Ho as [->|(x & -> & Hx)]; [reflexivity|].
    cbn. now rewrite bool_decide_false by exact Hx. }
  split; [reflexivity|]. split; [reflexivity|]. split.
  - intros x ->. now apply logger_held.
  - intros -> Hd. eexists. rewrite logger_default by (exact Hd || reflexivity).
    now split.
Qed.

(** X5. A handle from [getLogger] is the holder, whatever name is asked
    for, and an attribute other than [logger] and [_logger] read through
    it is the attribute of the logger kept at that moment: a method
    called through a handle after [setLogger] reaches the logger that was
    set, and an attribute that this logger lacks raises
    [AttributeError]. *)
Theorem getLogger_forwards (ops : list op) (name : option string) (l : Obj)
    (item msg : string)
    (Hl : "debug" ∈ obj_attrs l)
    (Hitem : item ≠ "logger" /\ item ≠ "_logger") :
  let s := exec std_logger ops loaded in
  getLogger name s = (Ok _logger_holder, s)
  /\ exists s',
       setLogger (Some l) s = (Ok tt, s')
       /\ (item ∈ obj_attrs l ->
           __getattribute__ std_logger _logger_holder item s'
           = (Ok (AttrOf l item), s')
           /\ (h ← getLogger name;
               _ ← setLogger (Some l);
               a ← __getattribute__ std_logger h item;
               call a msg) s
              = (Ok tt,
                 {| singleton := singleton s'; instances := instances s';
                    calls := (calls s ++ [(l, "debug", set_to l); (l, item, msg)])%list |}))
       /\ (item ∉ obj_attrs l ->
           __getattribute__ std_logger _logger_holder item s'
           = (Raise AttributeError, s')).
Proof.
  intros s. destruct (exec_instances ops) as [x Hs]; fold s in Hs.
  split; [reflexivity|]. eexists. rewrite (setLogger_ok s x l Hs Hl).
  split; [reflexivity|].
  assert (Hget : forall s1, instances s1 = [Some l] ->
            __getattribute__ std_logger _logger_holder item s1
            = lift (getattr (Some l) item) s1).
  { intros s1 H1. unfold __getattribute__.
    rewrite bool_decide_false.
    2:{ rewrite !elem_of_cons, elem_of_nil. tauto. }
    unfold mbind, ML_bind. now rewrite (logger_held s1 l H1). }
  split.
  - intros Hin. split.
    + rewrite Hget by reflexivity. unfold lift, getattr.
      now rewrite bool_decide_true by exact Hin.
    + unfold mbind at 1, ML_bind at 1, getLogger at 1. cbn [mret ML_ret].
      unfold mbind at 1, ML_bind at 1. rewrite (setLogger_ok s x l Hs Hl).
      unfold mbind at 1, ML_bind at 1. rewrite Hget by reflexivity.
      unfold lift, getattr. rewrite bool_decide_true by exact Hin.
      cbn. now rewrite <- app_assoc.
  - intros Hnin. rewrite Hget by reflexivity. unfold lift, getattr.
    now rewrite bool_decide_false by exact Hnin.
Qed.

End LoggingFacts.

Lemma logger_lazy_default_witness :
  exists s',
    Logging.logger Logging.deeplite_logger Logging._logger_holder
      (Logging.loaded)
    = (Ok (Some Logging.deeplite_logger), s')
    /\ Logging.calls s'
       = [(Logging.deeplite_logger, "debug", Logging.defaulting)].
Proof.
  destruct (logger_lazy_default Logging.deeplite_logger [] ltac:(compute_done))
    as (l & s' & Hrun & _ & Hnone & _).
  destruct (Hnone eq_refl) as [-> Hcalls].
  exists s'. split; [exact Hrun | exact Hcalls].
Defined.

Lemma setLogger_replaces_witness :
  exists s',
    Logging.setLogger (Some Logging.custom_logger) Logging.loaded = (Ok tt, s')
    /\ Logging.logger Logging.deeplite_logger Logging._logger_holder s'
       = (Ok (Some Logging.custom_logger), s').
Proof.
  destruct (setLogger_replaces Logging.deeplite_logger [] Logging.custom_logger
              Logging.deeplite_logger
              ltac:(compute_done) ltac:(compute_done))
    as (s' & Hset & _ & _ & Hread & _).
  exists s'. split; [exact Hset | exact Hread].
Defined.

Lemma setLogger_raises_after_assignment_witness :
  exists s',
    Logging.setLogger (Some Logging.stream) Logging.loaded
    = (Raise AttributeError, s')
    /\ Logging.instances s' = [Some Logging.stream].
Proof.
  destruct (setLogger_raises_after_assignment Logging.deeplite_logger []
              (Some Logging.stream))
    as (s' & Hset & Hheld & _).
  - right. exists Logging.stream. split; [reflexivity | compute_done].
  - exists s'. split; [exact Hset | exact Hheld].
Defined.

Lemma getLogger_forwards_witness :
  exists s',
    Logging.setLogger (Some Logging.custom_logger) Logging.loaded = (Ok tt, s')
    /\ Logging.__getattribute__ Logging.deeplite_logger Logging._logger_holder
         "info" s'
       = (Ok (Logging.AttrOf Logging.custom_logger "info"), s').
Proof.
  destruct (getLogger_forwards Logging.deeplite_logger [] (Some "profiler")
              Logging.custom_logger "info" "profiling"
              ltac:(compute_done) ltac:(split; discriminate))
    as (_ & s' & Hset & Hin & _).
  exists s'. split; [exact Hset|]. apply Hin. compute_done.
Defined.

(** ** The one-model table, row by row *)

Lemma parse_metric_shown (m : Metric) :
  parse_metric (PyMetric m)
  = Ok (friendly_name m, shown_value m, shown_units m, shown_comparative m,
        description m).
Proof.
  unfold parse_metric, shown_value, shown_units, shown_comparative.
  now destruct (value m).
Qed.

Lemma one_model_row_entry (m : Metric) (s ds : string) :
  one_model_row 40 20 (s, ds) (PyMetric m)
  = row ← one_model_entry m;
    Ok (s ++ row, ds ++ note_line (friendly_name m) (description m)).
Proof.
  unfold one_model_row, one_model_entry. rewrite parse_metric_shown.
  cbn [isinstance_Metric negb mbind result_bind].
  destruct (format_value 20 4 (shown_value m)) as [cell|e]; [|reflexivity].
  cbn [mbind result_bind]. unfold one_model_line, note_line, label.
  now rewrite !append_assoc.
Qed.

Lemma one_model_rows_collect (vals : list PyObj) (s ds : string) :
  let ms := omap (fun o => match o with PyMetric m => Some m | _ => None end) vals in
  for_each (one_model_row 40 20) vals (s, ds)
  = rows ← collect one_model_entry ms; Ok (s ++ rows, ds ++ notes ms).
Proof.
  revert s ds. induction vals as [|o vals IH]; intros s ds ms.
  - cbn. now rewrite !append_nil_r.
  - cbn [for_each]. destruct o as [t|m|n|].
    2:{ subst ms. rewrite omap_cons. cbn [collect].
        rewrite one_model_row_entry.
        destruct (one_model_entry m) as [row|e]; [|reflexivity].
        cbn [mbind result_bind]. rewrite IH. cbn zeta.
        destruct (collect one_model_entry _) as [rows|e]; [|reflexivity].
        cbn [mbind result_bind]. unfold notes. cbn [map concat foldr].
        now rewrite !append_assoc. }
    all: cbn [one_model_row isinstance_Metric negb mbind result_bind];
      apply IH.
Qed.

(** X6. With the two reserved strings in place, the one-model table
    is the text it was given, the head with the name and the backend,
    one row per Metric entry in the order of the mapping, the border and
    the footnote of the long form; a row is the metric's label
    right-aligned in 40 columns and its value cell. An exception comes
    from the first metric whose value cannot be formatted, and nothing
    else of the mapping is read. *)
Theorem make_one_model_summary_str_layout (status_dict : Dict.t PyObj)
    (short_print : bool) (description_str summary_str name backend : string)
    (Hname : Dict.get "name" status_dict = Some (PyStr name))
    (Hbackend : Dict.get "backend" status_dict = Some (PyStr backend)) :
  make_one_model_summary_str status_dict short_print description_str summary_str
  = rows ← collect one_model_entry (metrics status_dict);
    Ok (summary_str ++ one_model_head name backend ++ rows ++ one_model_border
          ++ footnote 63 short_print
               (description_str ++ notes (metrics status_dict))).
Proof.
  rewrite (make_one_model_frame _ _ _ _ _ _ Hname Hbackend).
  rewrite one_model_rows_collect. cbn zeta. fold (metrics status_dict).
  destruct (collect one_model_entry _) as [rows|e]; [|reflexivity].
  cbn [mbind result_bind]. now rewrite !append_assoc.
Qed.

Lemma make_one_model_summary_str_layout_witness :
  make_one_model_summary_str
    [("name", PyStr "m"); ("note", PyNone); ("model_size", PyMetric model_size_10);
     ("backend", PyStr "b")] false "" nl
  = Ok (nl ++ one_model_head "m" "b"
           ++ one_model_line "Model Size (MB)" "             10.0000"
           ++ one_model_border
           ++ footnote 63 false (note_line "Model Size" "size of the model")).
Proof.
  rewrite (make_one_model_summary_str_layout
             [("name", PyStr "m"); ("note", PyNone);
              ("model_size", PyMetric model_size_10); ("backend", PyStr "b")]
             false "" nl "m" "b" eq_refl eq_refl).
  vm_compute. reflexivity.
Defined.

(** X7. The long form of the one-model table is the short form followed
    by the footnote: the line [Note: ], the description text passed in,
    one line [* name: description] per Metric entry in the order of the
    mapping, and a rule of 65 characters without a line feed. The long
    form raises when the short form does, with the same exception. *)
Theorem make_one_model_summary_str_footnote (status_dict : Dict.t PyObj)
    (description_str summary_str : string) :
  make_one_model_summary_str status_dict false description_str summary_str
  = t ← make_one_model_summary_str status_dict true description_str summary_str;
    Ok (t ++ "Note: " ++ nl ++ description_str ++ notes (metrics status_dict)
          ++ "+" ++ Str.repeat "-" 63 ++ "+").
Proof.
  unfold make_one_model_summary_str.
  destruct (Dict.getitem "name" status_dict) as [name|e]; [|reflexivity].
  cbn [mbind result_bind].
  destruct (str_add "Param Name (" name) as [title|e]; [|reflexivity].
  cbn [mbind result_bind].
  destruct (Dict.getitem "backend" status_dict) as [backend|e]; [|reflexivity].
  cbn [mbind result_bind].
  destruct (str_add "Backend: " backend) as [title_2|e]; [|reflexivity].
  cbn [mbind result_bind].
  rewrite one_model_rows_collect. cbn zeta. fold (metrics status_dict).
  destruct (collect one_model_entry _) as [rows|e]; [|reflexivity].
  cbn [mbind result_bind negb]. now rewrite !append_assoc.
Qed.

Lemma collect_shown (ms ms' : list Metric) :
  map shown ms = map shown ms' ->
  collect one_model_entry ms = collect one_model_entry ms' /\ notes ms = notes ms'.
Proof.
  revert ms'. induction ms as [|m ms IH]; intros [|m' ms'] H; try discriminate.
  - now split.
  - cbn [map] in H. injection H as Hf Hv Hu Hd Hms.
    destruct (IH _ Hms) as [Hc Hn]. split.
    + cbn [collect]. rewrite Hc. unfold one_model_entry, label.
      now rewrite Hf, Hv, Hu.
    + unfold notes, concat in *. cbn [map foldr].
      now rewrite Hf, Hd, Hn.
Qed.

(** X8. The one-model table reads of the mapping its two reserved
    entries and, of each Metric entry in order, the friendly name, the
    value, the units when there is a value, and the description: two
    mappings that agree on these give the same table or the same
    exception. The keys of the metrics, the entries that are no Metric,
    the comparative tags and the units of a metric without a value play
    no part. *)
Theorem make_one_model_summary_str_reads (status_dict status_dict' : Dict.t PyObj)
    (short_print : bool) (description_str summary_str : string)
    (Hname : Dict.get "name" status_dict = Dict.get "name" status_dict')
    (Hbackend : Dict.get "backend" status_dict = Dict.get "backend" status_dict')
    (Hmetrics : map shown (metrics status_dict) = map shown (metrics status_dict')) :
  make_one_model_summary_str status_dict short_print description_str summary_str
  = make_one_model_summary_str status_dict' short_print description_str summary_str.
Proof.
  destruct (collect_shown _ _ Hmetrics) as [Hc Hn].
  unfold make_one_model_summary_str, Dict.getitem.
  rewrite <- Hname, <- Hbackend.
  destruct (Dict.get "name" status_dict) as [name|]; [|reflexivity].
  cbn [mbind result_bind].
  destruct (str_add "Param Name (" name) as [title|e]; [|reflexivity].
  cbn [mbind result_bind].
  destruct (Dict.get "backend" status_dict) as [backend|]; [|reflexivity].
  cbn [mbind result_bind].
  destruct (str_add "Backend: " backend) as [title_2|e]; [|reflexivity].
  cbn [mbind result_bind].
  rewrite !one_model_rows_collect. cbn zeta.
  fold (metrics status_dict) (metrics status_dict').
  now rewrite Hc, Hn.
Qed.

Lemma make_one_model_summary_str_reads_witness :
  make_one_model_summary_str
    [("name", PyStr "m"); ("backend", PyStr "b"); ("epochs", PyNumber (PyInt 3));
     ("model_size", PyMetric model_size_10); ("flops", PyMetric (flops None))]
    true "" nl
  = make_one_model_summary_str
      [("size", PyMetric (with_comparative (Some (Raw "bogus")) model_size_10));
       ("backend", PyStr "b"); ("name", PyStr "m");
       ("ops", PyMetric (with_comparative None (flops None)))]
      true "" nl.
Proof.
  apply make_one_model_summary_str_reads; reflexivity.
Defined.

Lemma getitem_str_add_reserved (k lit : string) (d : Dict.t PyObj) :
  (v ← Dict.getitem k d; str_add lit v)
  = (t ← reserved k d; Ok (lit ++ t)).
Proof.
  unfold reserved, Dict.getitem.
  now destruct (Dict.get k d) as [[t| | |]|].
Qed.

(** X9. The head of the one-model table is built before any row is:
    a mapping without the key [name] raises [KeyError] and a [name] that
    is no [str] raises [TypeError], then the same holds for [backend],
    whatever the other entries of the mapping are. *)
Theorem make_one_model_summary_str_reserved (status_dict : Dict.t PyObj)
    (short_print : bool) (description_str summary_str : string) (e : exn)
    (Hhead : (name ← reserved "name" status_dict;
              backend ← reserved "backend" status_dict;
              Ok (name, backend)) = Raise e) :
  make_one_model_summary_str status_dict short_print description_str summary_str
  = Raise e.
Proof.
  unfold make_one_model_summary_str.
  pose proof (getitem_str_add_reserved "name" "Param Name (" status_dict) as H1.
  pose proof (getitem_str_add_reserved "backend" "Backend: " status_dict) as H2.
  destruct (Dict.getitem "name" status_dict) as [v|e1];
    cbn [mbind result_bind] in H1 |- *.
  - rewrite H1. destruct (reserved "name" status_dict) as [name|e1];
      cbn [mbind result_bind] in Hhead |- *; [|now injection Hhead as ->].
    destruct (Dict.getitem "backend" status_dict) as [v'|e2];
      cbn [mbind result_bind] in H2 |- *.
    + rewrite H2. destruct (reserved "backend" status_dict) as [backend|e2];
        cbn [mbind result_bind] in Hhead |- *; [discriminate | now injection Hhead as ->].
    + destruct (reserved "backend" status_dict) as [backend|e2'];
        cbn [mbind result_bind] in Hhead, H2; [discriminate | congruence].
  - destruct (reserved "name" status_dict) as [name|e1'];
      cbn [mbind result_bind] in Hhead, H1; [discriminate | congruence].
Qed.

Lemma make_one_model_summary_str_reserved_witness :
  make_one_model_summary_str
    [("name", PyStr "m"); ("flops", PyMetric (flops (Some (PyInt (10 ^ 400)))))]
    true "" nl = Raise KeyError
  /\ make_one_model_summary_str
       [("name", PyNone); ("backend", PyStr "b")] true "" nl = Raise TypeError.
Proof.
  split; apply make_one_model_summary_str_reserved; reflexivity.
Defined.

(** ** The two-model table, row by row *)

Section TwoModelsRows.
Variable Comparative_of_str : string -> option Comparative.
Variable compare : Comparative -> Value -> Value -> result (option Number).

#[local] Abbreviation row := (two_models_row Comparative_of_str compare).
#[local] Abbreviation entry := (two_models_entry Comparative_of_str compare).
#[local] Abbreviation table := (make_two_models_summary_str Comparative_of_str compare).

Lemma two_models_row_entry (b : Dict.t PyObj) (k : string) (m : Metric)
    (s ds : string) :
  Dict.contains k b = true ->
  row b 40 25 25 25 (s, ds) (k, PyMetric m)
  = r ← entry b (k, m);
    Ok (s ++ r, ds ++ note_line (friendly_name m) (description m)).
Proof.
  intros Hk. unfold Formatter.two_models_row, two_models_entry.
  rewrite Hk. cbn [andb isinstance_Metric fst snd].
  destruct (Dict.getitem k b) as [sv2|e]; [|reflexivity].
  cbn [mbind result_bind]. rewrite parse_metric_shown. cbn [mbind result_bind].
  destruct (parse_metric sv2) as [[[[[t2 v2] u2] c2] d2]|e]; [|reflexivity].
  cbn [mbind result_bind].
  destruct (Formatter.enhancement _ _ _ _ _ _ _) as [val|e]; [|reflexivity].
  cbn [mbind result_bind].
  destruct (format_value 25 4 (shown_value m)) as [cell_1|e]; [|reflexivity].
  cbn [mbind result_bind].
  destruct (format_value 25 4 v2) as [cell_2|e]; [|reflexivity].
  cbn [mbind result_bind]. unfold two_models_line, note_line, label.
  now rewrite !append_assoc.
Qed.

Lemma two_models_row_skip (b : Dict.t PyObj) (k : string) (v : PyObj)
    (acc : string * string) :
  Dict.contains k b && isinstance_Metric v = false ->
  row b 40 25 25 25 acc (k, v) = Ok acc.
Proof.
  intros H. unfold Formatter.two_models_row. destruct acc as [s ds].
  now rewrite H.
Qed.

Lemma shared_metrics_cons (k : string) (v : PyObj) (a b : Dict.t PyObj) :
  shared_metrics ((k, v) :: a) b
  = match v with
    | PyMetric m =>
        if Dict.contains k b then (k, m) :: shared_metrics a b
        else shared_metrics a b
    | _ => shared_metrics a b
    end.
Proof.
  unfold shared_metrics. rewrite omap_cons. cbn [fst snd].
  destruct v as [t|m|n|]; try reflexivity.
  now destruct (Dict.contains k b).
Qed.

Lemma two_models_rows_collect (a b : Dict.t PyObj) (s ds : string) :
  for_each (row b 40 25 25 25) (Dict.items a) (s, ds)
  = rows ← collect (entry b) (shared_metrics a b);
    Ok (s ++ rows, ds ++ notes (shared_metrics a b).*2).
Proof.
  unfold Dict.items. revert s ds. induction a as [|[k v] a IH]; intros s ds.
  - cbn. now rewrite !append_nil_r.
  - cbn [for_each]. rewrite shared_metrics_cons.
    destruct v as [t|m|n|].
    2:{ destruct (Dict.contains k b) eqn:Hk.
        - rewrite (two_models_row_entry b k m s ds Hk). cbn [collect].
          destruct (entry b (k, m)) as [r|e]; [|reflexivity].
          cbn [mbind result_bind]. rewrite IH.
          destruct (collect (entry b) (shared_metrics a b)) as [rows|e];
            [|reflexivity].
          cbn [mbind result_bind]. rewrite fmap_cons. unfold notes, concat.
          cbn [map foldr snd]. now rewrite !append_assoc.
        - rewrite two_models_row_skip by (now rewrite Hk).
          cbn [mbind result_bind]. apply IH. }
    all: rewrite two_models_row_skip by apply andb_false_r;
      cbn [mbind result_bind]; apply IH.
Qed.

(** X10. With the reserved strings of both mappings in place, the
    two-model table is the text it was given, the head with the two names
    and the two backends, one row for each Metric entry of the first
    mapping whose key the second mapping has, in the order of the first
    mapping, the border and the footnote of the long form. Entries of the
    first mapping that are no Metric, or whose key the second mapping
    lacks, give no row; the labels and the footnote come from the first
    mapping. *)
Theorem make_two_models_summary_str_layout (status_dict status_dict_2 : Dict.t PyObj)
    (short_print : bool) (description_str summary_str : string)
    (name name_2 backend backend_2 : string)
    (Hname : Dict.get "name" status_dict = Some (PyStr name))
    (Hname_2 : Dict.get "name" status_dict_2 = Some (PyStr name_2))
    (Hbackend : Dict.get "backend" status_dict = Some (PyStr backend))
    (Hbackend_2 : Dict.get "backend" status_dict_2 = Some (PyStr backend_2)) :
  table status_dict status_dict_2 short_print description_str summary_str
  = rows ← collect (entry status_dict_2) (shared_metrics status_dict status_dict_2);
    Ok (summary_str ++ two_models_head name name_2 backend backend_2 ++ rows
          ++ two_models_border
          ++ footnote 122 short_print
               (description_str
                  ++ notes (shared_metrics status_dict status_dict_2).*2)).
Proof.
  unfold Formatter.make_two_models_summary_str, Dict.getitem.
  rewrite Hname, Hname_2, Hbackend, Hbackend_2. cbn [mbind result_bind str_add].
  rewrite two_models_rows_collect.
  destruct (collect _ _) as [rows|e]; [|reflexivity].
  cbn [mbind result_bind]. unfold footnote, two_models_head, two_models_border.
  destruct short_print; cbn [negb].
  - rewrite append_nil_r, <- !append_assoc. reflexivity.
  - rewrite <- !append_assoc. reflexivity.
Qed.

(** X11. The long form of the two-model table is the short form
    followed by the footnote: the line [Note: ], the description text
    passed in, one line [* name: description] for each row, with the name
    and the description of the metric of the first mapping, and a rule of
    124 characters without a line feed. The long form raises when the
    short form does, with the same exception. *)
Theorem make_two_models_summary_str_footnote (status_dict status_dict_2 : Dict.t PyObj)
    (description_str summary_str : string) :
  table status_dict status_dict_2 false description_str summary_str
  = t ← table status_dict status_dict_2 true description_str summary_str;
    Ok (t ++ "Note: " ++ nl ++ description_str
          ++ notes (shared_metrics status_dict status_dict_2).*2
          ++ "+" ++ Str.repeat "-" 122 ++ "+").
Proof.
  unfold Formatter.make_two_models_summary_str.
  repeat match goal with
  | |- context [mbind _ ?m] =>
      lazymatch m with
      | Dict.getitem _ _ => idtac
      | str_add _ _ => idtac
      end;
      destruct m; cbn [mbind result_bind]; [|reflexivity]
  end.
  rewrite two_models_rows_collect.
  destruct (collect _ _) as [rows|e]; [|reflexivity].
  cbn [mbind result_bind negb]. now rewrite !append_assoc.
Qed.

(** X12. The second mapping is read by key only: two second mappings
    that hold the same entry under every key give the same table or the
    same exception, so the order of the entries of the second mapping
    plays no part. *)
Theorem make_two_models_summary_str_second_by_key
    (status_dict status_dict_2 status_dict_2' : Dict.t PyObj)
    (short_print : bool) (description_str summary_str : string)
    (Hkeys : forall k, Dict.get k status_dict_2 = Dict.get k status_dict_2') :
  table status_dict status_dict_2 short_print description_str summary_str
  = table status_dict status_dict_2' short_print description_str summary_str.
Proof.
  unfold Formatter.make_two_models_summary_str, Dict.getitem.
  rewrite <- !Hkeys.
  repeat match goal with
  | |- context [mbind _ ?m] =>
      lazymatch m with
      | match Dict.get _ _ with _ => _ end => idtac
      | str_add _ _ => idtac
      end;
      destruct m; cbn [mbind result_bind]; [|reflexivity]
  end.
  erewrite for_each_ext; [reflexivity|].
  intros [s ds] [sk sv]. unfold Formatter.two_models_row, Dict.contains, Dict.getitem.
  now rewrite Hkeys.
Qed.

(** X13. The head of the two-model table is built before any row is,
    and its four reserved entries are read in the order [name] of the
    first mapping, [name] of the second, [backend] of the first,
    [backend] of the second: the first of them that is missing raises
    [KeyError], or [TypeError] when it is no [str], whatever the other
    entries of the mappings are. *)
Theorem make_two_models_summary_str_reserved
    (status_dict status_dict_2 : Dict.t PyObj)
    (short_print : bool) (description_str summary_str : string) (e : exn)
    (Hhead : (name ← reserved "name" status_dict;
              name_2 ← reserved "name" status_dict_2;
              backend ← reserved "backend" status_dict;
              backend_2 ← reserved "backend" status_dict_2;
              Ok (name, name_2, backend, backend_2)) = Raise e) :
  table status_dict status_dict_2 short_print description_str summary_str
  = Raise e.
Proof.
  unfold Formatter.make_two_models_summary_str.
  unfold reserved, Dict.getitem in *.
  destruct (Dict.get "name" status_dict) as [[t| | |]|];
    cbn [mbind result_bind str_add] in Hhead |- *;
    try (now injection Hhead as ->).
  destruct (Dict.get "name" status_dict_2) as [[t2| | |]|];
    cbn [mbind result_bind str_add] in Hhead |- *;
    try (now injection Hhead as ->).
  destruct (Dict.get "backend" status_dict) as [[t3| | |]|];
    cbn [mbind result_bind str_add] in Hhead |- *;
    try (now injection Hhead as ->).
  destruct (Dict.get "backend" status_dict_2) as [[t4| | |]|];
    cbn [mbind result_bind str_add] in Hhead |- *;
    try (now injection Hhead as ->).
  discriminate.
Qed.

End TwoModelsRows.

Lemma make_two_models_summary_str_layout_witness :
  make_two_models_summary_str (fun _ => None) compare_status_values
    [("name", PyStr "a"); ("backend", PyStr "x"); ("epochs", PyNumber (PyInt 3));
     ("flops", PyMetric (flops (Some (PyInt 7))));
     ("model_size", PyMetric model_size_10)]
    [("model_size", PyMetric model_size_5); ("name", PyStr "b");
     ("backend", PyStr "y")]
    true "" nl
  = Ok (nl ++ two_models_head "a" "b" "x" "y"
           ++ two_models_line "Model Size (MB)" "0.50x"
                (Str.rjust 25 "10.0000") (Str.rjust 25 "5.0000")
           ++ two_models_border).
Proof.
  rewrite (make_two_models_summary_str_layout (fun _ => None) compare_status_values
             [("name", PyStr "a"); ("backend", PyStr "x");
              ("epochs", PyNumber (PyInt 3));
              ("flops", PyMetric (flops (Some (PyInt 7))));
              ("model_size", PyMetric model_size_10)]
             [("model_size", PyMetric model_size_5); ("name", PyStr "b");
              ("backend", PyStr "y")]
             true "" nl "a" "b" "x" "y" eq_refl eq_refl eq_refl eq_refl).
  vm_compute. reflexivity.
Defined.

Lemma make_two_models_summary_str_second_by_key_witness :
  make_two_models_summary_str (fun _ => None) compare_status_values
    [("name", PyStr "a"); ("backend", PyStr "x"); ("model_size", PyMetric model_size_10)]
    [("name", PyStr "b"); ("backend", PyStr "y"); ("model_size", PyMetric model_size_5)]
    true "" nl
  = make_two_models_summary_str (fun _ => None) compare_status_values
      [("name", PyStr "a"); ("backend", PyStr "x"); ("model_size", PyMetric model_size_10)]
      [("model_size", PyMetric model_size_5); ("backend", PyStr "y"); ("name", PyStr "b")]
      true "" nl.
Proof.
  apply make_two_models_summary_str_second_by_key.
  intros k. cbn [Dict.get].
  destruct (String.eqb_spec "name" k) as [<-|Hn]; [reflexivity|].
  destruct (String.eqb_spec "backend" k) as [<-|Hb]; [reflexivity|].
  destruct (String.eqb_spec "model_size" k) as [<-|Hm]; reflexivity.
Defined.

Lemma make_two_models_summary_str_reserved_witness :
  make_two_models_summary_str (fun _ => None) compare_status_values
    [("name", PyNone)] [] true "" nl = Raise TypeError
  /\ make_two_models_summary_str (fun _ => None) compare_status_values
       [("name", PyStr "a")] [("backend", PyNone)] true "" nl = Raise KeyError.
Proof.
  split; apply make_two_models_summary_str_reserved; reflexivity.
Defined.

(** ** The placeholder under any format specification *)

(** X14. [NotComputedValue.__format__] validates nothing. Without [>]
    in the specification the token [<NotComputed>] comes back as it is,
    whatever the specification asks for; every text it returns is the
    token after some spaces, never a shorter text and never another fill
    character. It raises only where it pads, when the specification has
    [>] and the text taken for the width passes [isdigit]: so with a
    superscript digit for the width ([ValueError] of [int]) and with a
    width beyond [sys.maxsize + 13] ([OverflowError] of the
    repetition). *)
Theorem NotComputedValue_format_any (format_spec : string) :
  (Str.contains ">" format_spec = false ->
   NotComputedValue_format format_spec = Ok "<NotComputed>")
  /\ (forall r, NotComputedValue_format format_spec = Ok r ->
        exists n, 0 <= n /\ r = Str.repeat " " n ++ "<NotComputed>")
  /\ (forall e, NotComputedValue_format format_spec = Raise e ->
        Str.contains ">" format_spec = true
        /\ Str.isdigit (width_text format_spec) = true)
  /\ NotComputedValue_format (String ">" (String (ascii_of_nat 185) ""))
     = Raise ValueError
  /\ NotComputedValue_format (">" ++ Str.of_int (2 ^ 63 + 13))
     = Raise OverflowError.
Proof.
  split; [|split; [|split; [|split]]].
  - intros H. unfold NotComputedValue_format. now rewrite H.
  - intros r. unfold NotComputedValue_format.
    destruct (Str.contains ">" format_spec);
      [|intros [= <-]; exists 0; now split].
    cbn zeta. destruct (Str.isdigit _);
      [|intros [= <-]; exists 0; now split].
    destruct (Str.int _) as [w|e]; [|discriminate].
    cbn [mbind result_bind]. unfold Str.mul.
    destruct (Str.maxsize <? _); [discriminate|].
    cbn [mbind result_bind]. intros [= <-].
    exists (Z.max (w - Str.len "<NotComputed>") 0). split; [lia | reflexivity].
  - intros e. unfold NotComputedValue_format, width_text.
    destruct (Str.contains ">" format_spec); [|discriminate].
    cbn zeta. destruct (Str.isdigit _); [|discriminate].
    intros _. now split.
  - reflexivity.
  - vm_compute. reflexivity.
Qed.

(** ** The display policy, then the one-model table *)

Lemma collect_returns {A : Type} (f : A -> result string) (l : list A) :
  returns (collect f l) <-> forall x, x ∈ l -> returns (f x).
Proof.
  induction l as [|x l IH].
  - split; [intros _ y Hy; now apply elem_of_nil in Hy | intros _; now eexists].
  - cbn [collect]. split.
    + intros [r Hr] y Hy. destruct (f x) as [rx|e] eqn:Hx; [|discriminate].
      cbn [mbind result_bind] in Hr.
      destruct (collect f l) as [rs|e] eqn:Hl; [|discriminate].
      apply elem_of_cons in Hy as [->|Hy]; [rewrite Hx; now eexists|].
      apply IH; [now eexists | exact Hy].
    + intros H. destruct (H x) as [rx ->]; [left|]. cbn [mbind result_bind].
      destruct (proj2 IH) as [rs ->]; [intros y Hy; apply H; now right|].
      now eexists.
Qed.

Lemma metrics_omap_entry (d : Dict.t PyObj) (ks : list string) :
  metrics (omap (entry_of d) ks) = metrics_at d ks.
Proof.
  unfold metrics, metrics_at, Dict.values.
  induction ks as [|k ks IH]; [reflexivity|].
  rewrite !omap_cons. unfold entry_of at 1.
  destruct (Dict.get k d) as [v|]; cbn [mbind option_bind]; [|exact IH].
  rewrite fmap_cons, omap_cons. cbn [snd].
  destruct v as [t|m|n|]; try exact IH. f_equal. exact IH.
Qed.

Lemma get_elem_of_values (d : Dict.t PyObj) (k : string) (v : PyObj) :
  Dict.get k d = Some v -> v ∈ Dict.values d.
Proof.
  unfold Dict.values. induction d as [|[k' v'] d IH]; [discriminate|].
  cbn [Dict.get]. rewrite fmap_cons. destruct (String.eqb k' k).
  - intros [= ->]. left.
  - intros H. right. now apply IH.
Qed.

Lemma metrics_at_subset (d : Dict.t PyObj) (ks : list string) (m : Metric) :
  m ∈ metrics_at d ks -> m ∈ metrics d.
Proof.
  unfold metrics_at, metrics. rewrite !list_elem_of_omap.
  intros (k & _ & Hk). exists (PyMetric m). split; [|reflexivity].
  destruct (Dict.get k d) as [[t|m'|n|]|] eqn:E; try discriminate.
  injection Hk as ->. now apply (get_elem_of_values d k).
Qed.

(** X15. The display policy keeps what the one-model table needs. On
    a mapping with the two reserved strings, the mapping that
    [default_display_filter_function] returns gives a table with the same
    head, whose rows are the metrics under the six canonical keys in the
    canonical order and then the metrics under the other keys, without
    the one under [inference_time]; and when the table of the input is
    returned, so is the table of the filtered mapping. *)
Theorem default_display_filter_function_then_summary
    (tuple : gset string -> list string) (σ : store) (a : loc)
    (d : Dict.t PyObj) (short_print : bool)
    (description_str summary_str name backend : string)
    (Htuple : listing tuple)
    (Ha : σ !! a = Some d)
    (Hname : Dict.get "name" d = Some (PyStr name))
    (Hbackend : Dict.get "backend" d = Some (PyStr backend)) :
  let ks := (order ++ tuple (leftover_set (Dict.keys d)))%list in
  exists (r : loc) (σ' : store) (d' : Dict.t PyObj),
    default_display_filter_function tuple a σ = Ok (r, σ')
    /\ σ' !! r = Some d'
    /\ make_one_model_summary_str d' short_print description_str summary_str
       = (rows ← collect one_model_entry (metrics_at d ks);
          Ok (summary_str ++ one_model_head name backend ++ rows
                ++ one_model_border
                ++ footnote 63 short_print
                     (description_str ++ notes (metrics_at d ks))))
    /\ (returns (make_one_model_summary_str d short_print description_str
                   summary_str) ->
        returns (make_one_model_summary_str d' short_print description_str
                   summary_str)).
Proof.
  intros ks. eexists _, _, _.
  split; [exact (default_display_filter_function_run tuple σ a d Ha)|].
  split; [apply lookup_insert_eq|].
  fold ks.
  assert (Hn : Dict.get "name" (select ks d) = Some (PyStr name)).
  { unfold ks. now rewrite (get_select tuple Htuple). }
  assert (Hb : Dict.get "backend" (select ks d) = Some (PyStr backend)).
  { unfold ks. now rewrite (get_select tuple Htuple). }
  assert (Hm : metrics (select ks d) = metrics_at d ks).
  { unfold ks. rewrite select_eq by now apply NoDup_order_leftovers.
    apply metrics_omap_entry. }
  assert (Hd' :
    make_one_model_summary_str (select ks d) short_print description_str summary_str
    = (rows ← collect one_model_entry (metrics_at d ks);
       Ok (summary_str ++ one_model_head name backend ++ rows
             ++ one_model_border
             ++ footnote 63 short_print
                  (description_str ++ notes (metrics_at d ks))))).
  { rewrite (make_one_model_frame _ _ _ _ _ _ Hn Hb).
    rewrite one_model_rows_collect. cbn zeta. fold (metrics (select ks d)).
    rewrite Hm. destruct (collect one_model_entry _) as [rows|e]; [|reflexivity].
    cbn [mbind result_bind]. now rewrite !append_assoc. }
  split; [exact Hd'|].
  rewrite Hd', (make_one_model_frame _ _ _ _ _ _ Hname Hbackend).
  rewrite one_model_rows_collect. cbn zeta. fold (metrics d).
  intros Hret.
  assert (Hrows : returns (collect one_model_entry (metrics d))).
  { destruct (collect one_model_entry (metrics d)); [now eexists|].
    destruct Hret as [t Ht]. discriminate. }
  destruct (proj2 (collect_returns one_model_entry (metrics_at d ks)))
    as [rows ->]; [|now eexists].
  intros m Hin. apply (proj1 (collect_returns _ _) Hrows).
  now apply (metrics_at_subset d ks).
Qed.

Lemma default_display_filter_function_then_summary_witness :
  exists (r : loc) (σ' : store) (d' : Dict.t PyObj),
    default_display_filter_function elements 1%positive
      {[ 1%positive := [("name", PyStr "m"); ("backend", PyStr "b");
                        ("inference_time", PyMetric (flops None));
                        ("model_size", PyMetric model_size_10)] ]}
    = Ok (r, σ')
    /\ σ' !! r = Some d'
    /\ make_one_model_summary_str d' true "" nl
       = Ok (nl ++ one_model_head "m" "b"
                ++ one_model_line "Model Size (MB)" "             10.0000"
                ++ one_model_border).
Proof.
  destruct (default_display_filter_function_then_summary elements
              {[ 1%positive := [("name", PyStr "m"); ("backend", PyStr "b");
                                ("inference_time", PyMetric (flops None));
                                ("model_size", PyMetric model_size_10)] ]}
              1%positive
              [("name", PyStr "m"); ("backend", PyStr "b");
               ("inference_time", PyMetric (flops None));
               ("model_size", PyMetric model_size_10)]
              true "" nl "m" "b")
    as (r & σ' & d' & Hrun & Hr & Htable & _).
  - intros s. reflexivity.
  - reflexivity.
  - reflexivity.
  - reflexivity.
  - exists r, σ', d'. split; [exact Hrun|]. split; [exact Hr|].
    rewrite Htable. vm_compute. reflexivity.
Defined.

(** ** The width of a row *)

Lemma len_rjust_max (w : Z) (s : string) :
  Str.len (Str.rjust w s) = Z.max w (Str.len s).
Proof.
  assert (H0 : 0 <= Str.len s) by (unfold Str.len; lia).
  destruct (Z.le_gt_cases (Str.len s) w) as [H|H].
  - rewrite len_rjust by exact H. lia.
  - rewrite rjust_short by lia. lia.
Qed.

Lemma format_value_text (w : Z) (v : Value) :
  0 <= w <= 65536 ->
  format_value w 4 v = (t ← value_text v; Ok (Str.rjust w t)).
Proof.
  intros Hw. destruct v as [n|].
  - cbn [format_value value_text]. unfold format_f.
    now destruct (to_float n).
  - now rewrite format_value_not_computed.
Qed.

(** X16. A row of the one-model table is never cut: the label is
    right-aligned in 40 columns and the value text in 20, and a longer
    text takes the room it needs. With its line feed a row has
    [max 40 (len label) + max 20 (len text) + 6] characters, hence 66 as
    the lines of the head have when both texts fit, and more when one
    does not. *)
Theorem one_model_entry_width (m : Metric) (row : string)
    (Hrow : one_model_entry m = Ok row) :
  exists t,
    value_text (shown_value m) = Ok t
    /\ row = one_model_line (label m) (Str.rjust 20 t)
    /\ Str.len row = Z.max 40 (Str.len (label m)) + Z.max 20 (Str.len t) + 6
    /\ (Str.len (label m) <= 40 -> Str.len t <= 20 ->
        Str.len row = Str.len one_model_border).
Proof.
  unfold one_model_entry in Hrow. rewrite format_value_text in Hrow by lia.
  destruct (value_text (shown_value m)) as [t|e]; [|discriminate].
  cbn [mbind result_bind] in Hrow. injection Hrow as <-.
  exists t. split; [reflexivity|]. split; [reflexivity|].
  assert (Hlen : Str.len (one_model_line (label m) (Str.rjust 20 t))
                 = Z.max 40 (Str.len (label m)) + Z.max 20 (Str.len t) + 6).
  { unfold one_model_line. rewrite !len_app, !len_rjust_max.
    change (Str.len "|") with 1. change (Str.len " | ") with 3.
    change (Str.len nl) with 1. lia. }
  split; [exact Hlen|].
  intros Hl Ht. rewrite Hlen. change (Str.len one_model_border) with 66. lia.
Qed.

Lemma one_model_entry_width_witness :
  exists t,
    value_text (shown_value model_size_10) = Ok t
    /\ Str.len (one_model_line (label model_size_10) (Str.rjust 20 t)) = 66.
Proof.
  destruct (one_model_entry_width model_size_10
              (one_model_line "Model Size (MB)" "             10.0000"))
    as (t & Ht & _ & Hlen & _).
  - vm_compute. reflexivity.
  - exists t. split; [exact Ht|].
    vm_compute in Ht. injection Ht as <-. vm_compute. reflexivity.
Defined.

(** ** When the one-model table is returned *)

Lemma make_one_model_summary_str_eq (status_dict : Dict.t PyObj)
    (short_print : bool) (description_str summary_str : string) :
  make_one_model_summary_str status_dict short_print description_str summary_str
  = (name ← reserved "name" status_dict;
     backend ← reserved "backend" status_dict;
     rows ← collect one_model_entry (metrics status_dict);
     Ok (summary_str ++ one_model_head name backend ++ rows ++ one_model_border
           ++ footnote 63 short_print
                (description_str ++ notes (metrics status_dict)))).
Proof.
  unfold reserved.
  destruct (Dict.get "name" status_dict) as [[name| | |]|] eqn:Hn;
    try (unfold make_one_model_summary_str, Dict.getitem; rewrite Hn;
         reflexivity).
  destruct (Dict.get "backend" status_dict) as [[backend| | |]|] eqn:Hb;
    try (unfold make_one_model_summary_str, Dict.getitem; rewrite Hn, Hb;
         reflexivity).
  rewrite (make_one_model_frame _ _ _ _ _ _ Hn Hb).
  rewrite one_model_rows_collect. cbn zeta. fold (metrics status_dict).
  cbn [mbind result_bind].
  destruct (collect one_model_entry _) as [rows|e]; [|reflexivity].
  cbn [mbind result_bind]. now rewrite !append_assoc.
Qed.

Lemma reserved_raises (k : string) (d : Dict.t PyObj) (e : exn) :
  reserved k d = Raise e -> e = KeyError \/ e = TypeError.
Proof.
  unfold reserved. destruct (Dict.get k d) as [[t| | |]|]; intros [= <-]; tauto.
Qed.

Lemma one_model_entry_returns (m : Metric) :
  returns (one_model_entry m)
  <-> forall z, value m = Some (PyInt z) -> returns (float_of_int z).
Proof.
  unfold one_model_entry. rewrite format_value_text by lia.
  unfold shown_value, value_text. destruct (value m) as [[z|f]|].
  - cbn [to_float].
    destruct (float_of_int z) as [f|e] eqn:Hz; cbn [mbind result_bind].
    + split; [|intros _; now eexists].
      intros _ z' [= <-]. rewrite Hz. now eexists.
    + split; [intros [r Hr]; discriminate|].
      intros H. destruct (H z eq_refl) as [f Hf]. congruence.
  - cbn [to_float mbind result_bind].
    split; [intros _ z [=] | intros _; now eexists].
  - cbn [mbind result_bind].
    split; [intros _ z [=] | intros _; now eexists].
Qed.

Lemma one_model_entry_raises (m : Metric) (e : exn) :
  one_model_entry m = Raise e -> e = OverflowError.
Proof.
  unfold one_model_entry. rewrite format_value_text by lia.
  unfold shown_value, value_text. destruct (value m) as [[z|f]|];
    cbn [to_float mbind result_bind]; try discriminate.
  unfold float_of_int. destruct (is_inf _); cbn [mbind result_bind];
    [now intros [= <-] | discriminate].
Qed.

Lemma collect_raises {A : Type} (f : A -> result string) (l : list A) (e : exn) :
  collect f l = Raise e -> exists x, x ∈ l /\ f x = Raise e.
Proof.
  induction l as [|x l IH]; [discriminate|]. cbn [collect].
  destruct (f x) as [r|e'] eqn:Hx; cbn [mbind result_bind].
  - destruct (collect f l) as [rs|e'']; cbn [mbind result_bind]; [discriminate|].
    intros [= <-]. destruct (IH eq_refl) as (y & Hy & Hfy).
    exists y. split; [now right | exact Hfy].
  - intros [= <-]. exists x. split; [left | exact Hx].
Qed.

(** X17. The one-model table is returned exactly when [name] and
    [backend] are there and are [str], and no metric has an [int] value
    beyond the range of a [float]; a metric without a value, a [float]
    that is infinite or not a number, an entry that is no Metric never
    make it raise. The exceptions that leave it are [KeyError] and
    [TypeError] for the reserved entries and [OverflowError] for such
    an [int], and no other. *)
Theorem make_one_model_summary_str_returns_iff (status_dict : Dict.t PyObj)
    (short_print : bool) (description_str summary_str : string) :
  (returns (make_one_model_summary_str status_dict short_print description_str
              summary_str)
   <-> returns (reserved "name" status_dict)
       /\ returns (reserved "backend" status_dict)
       /\ forall m z, m ∈ metrics status_dict -> value m = Some (PyInt z) ->
                      returns (float_of_int z))
  /\ (forall e,
        make_one_model_summary_str status_dict short_print description_str
          summary_str = Raise e ->
        e = KeyError \/ e = TypeError \/ e = OverflowError).
Proof.
  rewrite make_one_model_summary_str_eq.
  assert (Hrows : returns (collect one_model_entry (metrics status_dict))
                  <-> forall m z, m ∈ metrics status_dict ->
                                  value m = Some (PyInt z) ->
                                  returns (float_of_int z)).
  { rewrite collect_returns. split.
    - intros H m z Hm. now apply one_model_entry_returns, H.
    - intros H m Hm. apply one_model_entry_returns. intros z. now apply H. }
  rewrite <- Hrows. clear Hrows.
  destruct (reserved "name" status_dict) as [name|e1] eqn:Hn;
    cbn [mbind result_bind].
  2:{ split.
      - split; [intros [t Ht]; discriminate | intros [[t Ht] _]; discriminate].
      - intros e [= <-]. destruct (reserved_raises _ _ _ Hn); tauto. }
  destruct (reserved "backend" status_dict) as [backend|e2] eqn:Hb;
    cbn [mbind result_bind].
  2:{ split.
      - split; [intros [t Ht]; discriminate|].
        intros (_ & [t Ht] & _); discriminate.
      - intros e [= <-]. destruct (reserved_raises _ _ _ Hb); tauto. }
  destruct (collect one_model_entry (metrics status_dict)) as [rows|e3] eqn:Hc;
    cbn [mbind result_bind].
  - split; [|discriminate].
    split; [intros _; repeat split; now eexists | intros _; now eexists].
  - split.
    + split; [intros [t Ht]; discriminate|].
      intros (_ & _ & [t Ht]); discriminate.
    + intros e [= <-]. destruct (collect_raises _ _ _ Hc) as (m & _ & Hm).
      right; right. now apply (one_model_entry_raises m).
Qed.
